(** * Span ordering, table projection and highlight rendering of
      gliner-streamlit.py

    A shallow embedding of the results tab of [gliner-streamlit.py]
    (lines 119-171): the in-place sort of the predicted entities, the
    table of entities, the loop that builds the highlighted markup, and
    the colour lookup in [color_options].

    Conventions of the embedding.
    - A Python [str] is a [string], a sequence of characters with code
      points below 256; offsets are Python [int]s, that is [Z].
    - An entity is the dict returned by [model.predict_entities]; its keys
      ["start"], ["end"], ["label"] are read with [ent[...]] and ["score"]
      with [ent.get], so the record has three mandatory fields and one
      optional field.
    - [color_options] is a dict used as a map: a [gmap string string].
    - [entities] is a reference to a list object that [list.sort] mutates;
      list objects live in a heap indexed by locations.
    - Streamlit calls are recorded, in order, in a log of UI events.
    - On entities of this type no operation of lines 122-165 raises
      (slicing is total, the keys exist, the scores are numbers), so the
      [except] clause of line 172 has no counterpart here.

    The last part embeds the rest of the script around it: the labels read
    from the text area (line 114), the colour pickers of the sidebar
    (lines 65-76), [load_model] (lines 98-106) and the branches of the
    results tab (lines 108-178), where the calls to the model library
    return or raise. *)

From Stdlib Require Import ZArith String Ascii List Floats Lia.
From Stdlib Require Import Sorting.Sorted Sorting.Permutation.
From stdpp Require Import gmap strings list.

Open Scope Z_scope.

(** ** Python strings and slicing *)

Module PyStr.

(** [len(s)] *)
Definition len (s : string) : Z := Z.of_nat (String.length s).

Fixpoint drop (n : nat) (s : string) : string :=
  match n, s with
  | O, _ => s
  | S _, EmptyString => EmptyString
  | S n', String _ s' => drop n' s'
  end.

Fixpoint take (n : nat) (s : string) : string :=
  match n, s with
  | O, _ => EmptyString
  | S _, EmptyString => EmptyString
  | S n', String c s' => String c (take n' s')
  end.

(** [PySlice_AdjustIndices] for a step of 1: a negative bound counts
    from the end, and every bound is clamped to [0, length]. *)
Definition adjust (length i : Z) : Z :=
  if i <? 0 then Z.max (i + length) 0 else Z.min i length.

(** [s[i:j]] *)
Definition slice (s : string) (i j : Z) : string :=
  let lo := adjust (len s) i in
  let hi := adjust (len s) j in
  if lo <? hi then take (Z.to_nat (hi - lo)) (drop (Z.to_nat lo) s)
  else EmptyString.

(** [s[i:]] *)
Definition slice_from (s : string) (i : Z) : string :=
  drop (Z.to_nat (adjust (len s) i)) s.

(** [''.join(l)] *)
Definition concat (l : list string) : string :=
  fold_right String.append EmptyString l.

End PyStr.

(** The characters the markup needs and a string literal cannot hold. *)
Definition dquote : string := String (ascii_of_nat 34) EmptyString.
Definition newline : string := String (ascii_of_nat 10) EmptyString.
Definition indent24 : string := "                        ".
Definition indent28 : string := "                            ".

(** ** Python numbers: [int] and [float] *)

Inductive pynum : Type :=
| PyInt (n : Z)
| PyFloat (x : float).

Module PyNum.

(** Nearest integer to [n / d] for [d > 0], ties to the even one. *)
Definition div_half_even (n d : Z) : Z :=
  let q := n / d in
  let r := n mod d in
  match 2 * r ?= d with
  | Lt => q
  | Gt => q + 1
  | Eq => if Z.even q then q else q + 1
  end.

(** [float.__round__(x, ndigits)] for [0 <= ndigits]: the decimal with
    [ndigits] digits nearest to the exact value of [x] (ties to even),
    then the double nearest to that decimal; non-finite values and
    zeros are returned as they are. *)
Definition float_round (x : float) (ndigits : Z) : float :=
  match Prim2SF x with
  | S754_finite s m e =>
      let scaled := Zpos m * 10 ^ ndigits in
      let n := if 0 <=? e then scaled * 2 ^ e
               else div_half_even scaled (2 ^ (- e)) in
      match n with
      | Zpos p =>
          SF2Prim (SFdiv prec emax (S754_finite s p 0)
                     (S754_finite false (Z.to_pos (10 ^ ndigits)) 0))
      | _ => SF2Prim (S754_zero s)
      end
  | _ => x
  end.

(** [round(v, ndigits)] for [0 <= ndigits]: an [int] is returned
    unchanged. *)
Definition round (v : pynum) (ndigits : Z) : pynum :=
  match v with
  | PyInt n => PyInt n
  | PyFloat x => PyFloat (float_round x ndigits)
  end.



End PyNum.

(** ** Entities and the list sort *)

(** One dict of the list returned by [model.predict_entities]. *)
Record Ent : Type := mkEnt {
  start : Z;               (* ent["start"] *)
  end_ : Z;                (* ent["end"] *)
  label : string;          (* ent["label"] *)
  score : option pynum     (* ent.get("score", ...) *)
}.

(** [list.sort(key=...)] is a stable sort: elements with equal keys keep
    their relative order.  Its result is the one of the stable insertion
    sort below, which is the only list in order of the key that keeps the
    elements of every key in their order ([stable_sort_is_list_sort]). *)
Section ListSort.
Context {A : Type} (key : A -> Z).

Fixpoint insert_by (x : A) (l : list A) : list A :=
  match l with
  | [] => [x]
  | y :: l' => if key x <=? key y then x :: l else y :: insert_by x l'
  end.

Definition list_sort (l : list A) : list A := foldr insert_by [] l.
End ListSort.

(** ** The table of entities *)

Record Row : Type := mkRow {
  Entity : string;
  Label : string;
  Start : Z;
  End_ : Z;
  Score : pynum
}.

(** The list comprehension handed to [pd.DataFrame] (lines 129-138). *)
Definition entities_df (text_input : string) (entities : list Ent) : list Row :=
  map (fun ent =>
         {| Entity := PyStr.slice text_input (start ent) (end_ ent);
            Label := label ent;
            Start := start ent;
            End_ := end_ ent;
            Score := PyNum.round (default (PyInt 0) (score ent)) 3 |})
      entities.

(** ** The highlighted markup *)

(** [color_options.get(label, "#90caf9")] *)
Definition fallback_color : string := "#90caf9".

Definition color_for (color_options : gmap string string) (lbl : string) : string :=
  default fallback_color (color_options !! lbl).

(** The two halves of the f-string of lines 155-160, around the
    entity's text. *)
Definition span_open (color : string) : string :=
  newline +:+ indent24 +:+ "<span class=" +:+ dquote +:+ "entity-highlight"
    +:+ dquote +:+ " style=" +:+ dquote +:+ "background-color:" +:+ color
    +:+ dquote +:+ ">" +:+ newline +:+ indent28.

Definition span_close (lbl : string) : string :=
  newline +:+ indent28 +:+ "<span class=" +:+ dquote +:+ "entity-label"
    +:+ dquote +:+ ">" +:+ lbl +:+ "</span>" +:+ newline +:+ indent24
    +:+ "</span>" +:+ newline +:+ indent24.

(** The locals of the loop: [highlighted] and [last_idx]. *)
Definition loop_body (color_options : gmap string string) (text_input : string)
    (acc : string * Z) (ent : Ent) : string * Z :=
  let '(highlighted, last_idx) := acc in
  let color := color_for color_options (label ent) in
  let highlighted := highlighted +:+ PyStr.slice text_input last_idx (start ent) in
  let highlighted :=
    highlighted +:+ (span_open color
                       +:+ PyStr.slice text_input (start ent) (end_ ent)
                       +:+ span_close (label ent)) in
  (highlighted, end_ ent).

(** Lines 143-165. *)
Definition highlight (color_options : gmap string string) (text_input : string)
    (entities : list Ent) : string :=
  let '(highlighted, last_idx) :=
    foldl (loop_body color_options text_input) (EmptyString, 0) entities in
  highlighted +:+ PyStr.slice_from text_input last_idx.

(** The same loop with every piece appended to [highlighted] kept apart
    and marked: a piece of [text_input], or markup the loop inserts. *)
Inductive chunk : Type :=
| Text (s : string)
| Tag (s : string).

Definition chunk_str (c : chunk) : string :=
  match c with Text s => s | Tag s => s end.

Definition flatten (cs : list chunk) : string :=
  PyStr.concat (map chunk_str cs).

(** Stripping the markup keeps the pieces of text and drops the tags
    (the highlight span with its style, and the label tag with the label
    it shows). *)
Definition strip_markup (cs : list chunk) : string :=
  PyStr.concat (omap (fun c => match c with Text s => Some s | Tag _ => None end) cs).

Definition loop_body_chunks (color_options : gmap string string) (text_input : string)
    (acc : list chunk * Z) (ent : Ent) : list chunk * Z :=
  let '(highlighted, last_idx) := acc in
  let color := color_for color_options (label ent) in
  let highlighted := highlighted ++ [Text (PyStr.slice text_input last_idx (start ent))] in
  let highlighted :=
    highlighted ++ [Tag (span_open color);
                    Text (PyStr.slice text_input (start ent) (end_ ent));
                    Tag (span_close (label ent))] in
  (highlighted, end_ ent).

Definition highlight_chunks (color_options : gmap string string) (text_input : string)
    (entities : list Ent) : list chunk :=
  let '(highlighted, last_idx) :=
    foldl (loop_body_chunks color_options text_input) ([], 0) entities in
  highlighted ++ [Text (PyStr.slice_from text_input last_idx)].

(** The f-string of lines 155-160 taken apart: its three tags, and the
    line breaks and indentation of the template between them. *)
Definition highlight_tag (color : string) : string :=
  "<span class=" +:+ dquote +:+ "entity-highlight" +:+ dquote +:+ " style="
    +:+ dquote +:+ "background-color:" +:+ color +:+ dquote +:+ ">".

Definition label_tag (lbl : string) : string :=
  "<span class=" +:+ dquote +:+ "entity-label" +:+ dquote +:+ ">" +:+ lbl
    +:+ "</span>".

Definition close_tag : string := "</span>".

(** The output of the loop once more, marked piece by piece: characters
    of [text_input], a tag (the label tag with the label it shows), or the
    white space of the template. *)
Inductive piece : Type :=
| Plain (s : string)
| Markup (s : string)
| Layout (s : string).

Definition piece_str (p : piece) : string :=
  match p with Plain s => s | Markup s => s | Layout s => s end.

Definition join_pieces (ps : list piece) : string :=
  PyStr.concat (map piece_str ps).


Definition span_pieces (color_options : gmap string string) (text_input : string)
    (ent : Ent) : list piece :=
  [Layout (newline +:+ indent24);
   Markup (highlight_tag (color_for color_options (label ent)));
   Layout (newline +:+ indent28);
   Plain (PyStr.slice text_input (start ent) (end_ ent));
   Layout (newline +:+ indent28);
   Markup (label_tag (label ent));
   Layout (newline +:+ indent24);
   Markup close_tag;
   Layout (newline +:+ indent24)].

Definition loop_body_pieces (color_options : gmap string string) (text_input : string)
    (acc : list piece * Z) (ent : Ent) : list piece * Z :=
  let '(highlighted, last_idx) := acc in
  (highlighted
     ++ Plain (PyStr.slice text_input last_idx (start ent))
        :: span_pieces color_options text_input ent,
   end_ ent).

Definition highlight_pieces (color_options : gmap string string) (text_input : string)
    (entities : list Ent) : list piece :=
  let '(highlighted, last_idx) :=
    foldl (loop_body_pieces color_options text_input) ([], 0) entities in
  highlighted ++ [Plain (PyStr.slice_from text_input last_idx)].

(** ** The program state and the results tab *)

Abbreviation loc := positive.

Inductive ui_event : Type :=
| Subheader (body : string)          (* st.subheader *)
| Dataframe (data : list Row)        (* st.dataframe *)
| Markdown (body : string)           (* st.markdown(..., unsafe_allow_html=True) *)
| Info (body : string).              (* st.info *)

Record pystate : Type := mkState {
  color_options : gmap string string;   (* the global dict *)
  lists : gmap loc (list Ent);          (* list objects, by reference *)
  ui : list ui_event                    (* what was displayed, oldest first *)
}.

Definition M (A : Type) : Type := pystate -> A * pystate.

#[global] Instance M_ret : MRet M := fun A x σ => (x, σ).
#[global] Instance M_bind : MBind M :=
  fun A B f m σ => let '(a, σ') := m σ in f a σ'.

Definition run {A} (m : M A) (σ : pystate) : pystate := snd (m σ).

(** [l.sort(key=lambda x: x['start'])]: the list object is replaced in
    the heap, every reference to it sees the sorted list. *)
Definition sort_in_place (l : loc) : M unit :=
  fun σ => (tt, {| color_options := color_options σ;
                   lists := <[l := list_sort start (lists σ !!! l)]> (lists σ);
                   ui := ui σ |}).

Definition deref (l : loc) : M (list Ent) :=
  fun σ => (lists σ !!! l, σ).

Definition dict_get (k dflt : string) : M string :=
  fun σ => (default dflt (color_options σ !! k), σ).

Definition display (e : ui_event) : M unit :=
  fun σ => (tt, {| color_options := color_options σ;
                   lists := lists σ;
                   ui := ui σ ++ [e] |}).

Fixpoint for_each {A B} (body : B -> A -> M B) (l : list A) (acc : B) : M B :=
  match l with
  | [] => mret acc
  | x :: l' => acc' ← body acc x; for_each body l' acc'
  end.

(** The body of the [for ent in entities] loop, lines 147-162. *)
Definition for_body (text_input : string) (acc : string * Z) (ent : Ent)
    : M (string * Z) :=
  let '(highlighted, last_idx) := acc in
  color ← dict_get (label ent) "#90caf9";
  let highlighted := highlighted +:+ PyStr.slice text_input last_idx (start ent) in
  let highlighted :=
    highlighted +:+ (span_open color
                       +:+ PyStr.slice text_input (start ent) (end_ ent)
                       +:+ span_close (label ent)) in
  mret (highlighted, end_ ent).

(** Lines 122-171: what the results tab does with the list [entities]
    that [model.predict_entities] returned. *)
Definition show_results (text_input : string) (entities : loc) : M unit :=
  sort_in_place entities;;
  ents ← deref entities;
  if bool_decide (ents ≠ []) then
    display (Subheader "Extracted Entities");;
    display (Dataframe (entities_df text_input ents));;
    '(highlighted, last_idx) ← for_each (for_body text_input) ents (EmptyString, 0);
    let highlighted := highlighted +:+ PyStr.slice_from text_input last_idx in
    display (Subheader "Highlighted Text");;
    display (Markdown ("<div class=" +:+ dquote +:+ "results-container" +:+ dquote
                         +:+ ">" +:+ highlighted +:+ "</div>"))
  else
    display (Info "No entities were detected in the provided text.").

(** ** Predicates on span lists *)

(** [0 <= start < end <= len(text)] *)
Definition valid_span (text : string) (e : Ent) : Prop :=
  0 <= start e /\ start e < end_ e /\ end_ e <= PyStr.len text.

(** In list order, a span ends before the next one begins. *)
Fixpoint non_overlapping (ents : list Ent) : Prop :=
  match ents with
  | e1 :: rest =>
      match rest with
      | e2 :: _ => end_ e1 <= start e2
      | [] => True
      end /\ non_overlapping rest
  | [] => True
  end.

(** Two spans that share no character, and a list of such spans in any
    order. *)
Definition disjoint (a b : Ent) : Prop :=
  end_ a <= start b \/ end_ b <= start a.

Fixpoint pairwise_disjoint (ents : list Ent) : Prop :=
  match ents with
  | [] => True
  | e :: rest => Forall (disjoint e) rest /\ pairwise_disjoint rest
  end.

(** Order by a key. *)
Definition le_by {A} (key : A -> Z) (x y : A) : Prop := key x <= key y.

(** Every two neighbours of the list satisfy [R]. *)
Definition neighbours {A} (R : A -> A -> Prop) (l : list A) : Prop :=
  forall (i : nat) (x y : A), l !! i = Some x -> l !! S i = Some y -> R x y.

(** The table row the comprehension builds for one entity. *)
Definition row_of (text_input : string) (ent : Ent) : Row :=
  {| Entity := PyStr.slice text_input (start ent) (end_ ent);
     Label := label ent;
     Start := start ent;
     End_ := end_ ent;
     Score := PyNum.round (default (PyInt 0) (score ent)) 3 |}.

(** The three chunks the loop appends for the highlighted entity. *)
Definition span_chunks (color_options : gmap string string) (text_input : string)
    (ent : Ent) : list chunk :=
  [Tag (span_open (color_for color_options (label ent)));
   Text (PyStr.slice text_input (start ent) (end_ ent));
   Tag (span_close (label ent))].

(** What [show_results] displays for a non-empty list. *)
Definition results_shown (color_options : gmap string string) (text_input : string)
    (ents : list Ent) : list ui_event :=
  [Subheader "Extracted Entities";
   Dataframe (entities_df text_input ents);
   Subheader "Highlighted Text";
   Markdown ("<div class=" +:+ dquote +:+ "results-container" +:+ dquote
               +:+ ">" +:+ highlight color_options text_input ents +:+ "</div>")].

(** ** Concrete inputs *)

(** The dict literal of lines 66-71. *)
Definition default_color_options : gmap string string :=
  <["drug group" := "#4dd0e1"]>
    (<["drug generic name" := "#26a69a"]>
       (<["drug brand name" := "#fb8c00"]>
          (<["chemical or toxins or pesticides" := "#8bc34a"]> ∅))).

(** A state in which [model.predict_entities] has just returned the list
    [ents], as the object at location 1, and nothing is displayed yet. *)
Definition entities_loc : loc := 1%positive.

Definition state_after_predict (ents : list Ent) : pystate :=
  {| color_options := default_color_options;
     lists := {[ entities_loc := ents ]};
     ui := [] |}.

Definition span (s e : Z) (lbl : string) : Ent :=
  {| start := s; end_ := e; label := lbl; score := None |}.


(** ** The rest of the script: labels, colours and the results tab *)

(** The string methods of line 114 and line 61, for characters below 256. *)
Module PyStrMethods.

(** [c.isspace()]: the code points 9-13, 28-32, 133 and 160. *)
Definition isspace (c : ascii) : bool :=
  let n := nat_of_ascii c in
  ((9 <=? n) && (n <=? 13) || (28 <=? n) && (n <=? 32)
   || (n =? 133) || (n =? 160))%nat.

(** [s.lstrip()] *)
Fixpoint lstrip (s : string) : string :=
  match s with
  | EmptyString => EmptyString
  | String c s' => if isspace c then lstrip s' else s
  end.

(** [s.rstrip()] *)
Fixpoint rstrip (s : string) : string :=
  match s with
  | EmptyString => EmptyString
  | String c s' =>
      match rstrip s' with
      | EmptyString => if isspace c then EmptyString else String c EmptyString
      | r => String c r
      end
  end.

(** [s.strip()] *)
Definition strip (s : string) : string := rstrip (lstrip s).

(** The piece before the first [sep] and the pieces after it. *)
Fixpoint split_pieces (sep : ascii) (s : string) : string * list string :=
  match s with
  | EmptyString => (EmptyString, [])
  | String c s' =>
      let '(w, ws) := split_pieces sep s' in
      if decide (c = sep) then (EmptyString, w :: ws) else (String c w, ws)
  end.

(** [s.split(sep)] for a separator of one character. *)
Definition split (sep : ascii) (s : string) : list string :=
  let '(w, ws) := split_pieces sep s in w :: ws.

(** [sep.join(l)] *)
Fixpoint join (sep : string) (l : list string) : string :=
  match l with
  | [] => EmptyString
  | x :: rest =>
      match rest with
      | [] => x
      | _ :: _ => x +:+ sep +:+ join sep rest
      end
  end.

(** The characters of a string. *)
Fixpoint chars (s : string) : list ascii :=
  match s with
  | EmptyString => []
  | String c s' => c :: chars s'
  end.

End PyStrMethods.

Definition newline_char : ascii := ascii_of_nat 10.

(** Line 56. *)
Definition default_labels : list string :=
  ["drug group"; "drug generic name"; "drug brand name";
   "chemical or toxins or pesticides"].

(** The default content of the text area, line 61. *)
Definition default_label_input : string :=
  PyStrMethods.join newline default_labels.

(** Line 114:
    [[label.strip() for label in custom_label_input.split('\n') if label.strip()]] *)
Definition parse_labels (custom_label_input : string) : list string :=
  PyStrMethods.strip
    <$> filter (fun label => PyStrMethods.strip label ≠ EmptyString)
          (PyStrMethods.split newline_char custom_label_input).

(** A label as [parse_labels] returns them: it begins and ends with a
    character that is not white space, and holds no newline. *)
Definition clean_label (label : string) : Prop :=
  PyStrMethods.isspace <$> head (PyStrMethods.chars label) = Some false /\
  PyStrMethods.isspace <$> last (PyStrMethods.chars label) = Some false /\
  newline_char ∉ PyStrMethods.chars label.

(** A string of white space only (the empty one too). *)
Definition blank (s : string) : Prop :=
  Forall (fun c => PyStrMethods.isspace c = true) (PyStrMethods.chars s).

(** The calls to Streamlit of the whole page: the elements of the results
    of lines 126-171, and the other calls of the sidebar and of the
    results tab. *)
Inductive st_call : Type :=
| Element (e : ui_event)
| StWrite (body : string)                   (* st.write *)
| StColorPicker (label value : string)      (* st.color_picker *)
| StSpinner (text : string)                 (* with st.spinner(...) *)
| StWarning (body : string)                 (* st.warning *)
| StError (body : string).                  (* st.error *)

Record app : Type := mkApp {
  acolors : gmap string string;     (* color_options *)
  alists : gmap loc (list Ent);     (* list objects *)
  alog : list st_call               (* the calls made, oldest first *)
}.

Definition T (A : Type) : Type := app -> A * app.

#[global] Instance T_ret : MRet T := fun A x τ => (x, τ).
#[global] Instance T_bind : MBind T :=
  fun A B f m τ => let '(a, τ') := m τ in f a τ'.

Definition runT {A} (m : T A) (τ : app) : app := snd (m τ).

(** A computation of the results runs on the same dict and list
    objects; the elements it displays follow the calls already made. *)
Definition lift {A} (m : M A) : T A :=
  fun τ =>
    let '(a, σ) := m {| color_options := acolors τ; lists := alists τ; ui := [] |} in
    (a, {| acolors := color_options σ; alists := lists σ;
           alog := alog τ ++ (Element <$> ui σ) |}).

Definition call (c : st_call) : T unit :=
  fun τ => (tt, {| acolors := acolors τ; alists := alists τ;
                   alog := alog τ ++ [c] |}).

(** [color_options = {...}] and [color_options[k] = v]. *)
Definition assign_color_options (d : gmap string string) : M unit :=
  fun σ => (tt, {| color_options := d; lists := lists σ; ui := ui σ |}).

Definition dict_set (k v : string) : M unit :=
  fun σ => (tt, {| color_options := <[k := v]> (color_options σ);
                   lists := lists σ; ui := ui σ |}).

(** A new list object holding [ents], at a location not in use. *)
Definition new_list (ents : list Ent) : T loc :=
  fun τ =>
    let l := fresh (dom (alists τ)) in
    (l, {| acolors := acolors τ; alists := <[l := ents]> (alists τ);
           alog := alog τ |}).

Fixpoint for_each_T {A} (body : A -> T unit) (l : list A) : T unit :=
  match l with
  | [] => mret tt
  | x :: l' => body x;; for_each_T body l'
  end.

(** Lines 65-76.  [color_picker label value] is the colour the widget
    returns: the user's choice, [value] being the colour it starts with. *)
Definition pick_color (color_picker : string -> string -> string)
    (label : string) : T unit :=
  value ← lift (dict_get label "#90caf9");
  call (StColorPicker ("Color for " +:+ label) value);;
  lift (dict_set label (color_picker ("Color for " +:+ label) value)).

Definition sidebar_colors (color_picker : string -> string -> string) : T unit :=
  call (Element (Subheader "Entity Colors"));;
  lift (assign_color_options default_color_options);;
  call (StWrite "Customize entity colors:");;
  for_each_T (pick_color color_picker) default_labels.

(** What a call to the model library does: it returns, or it raises an
    exception [e], of which the script uses [str(e)] only. *)
Inductive outcome (A : Type) : Type :=
| Returned (a : A)
| Raised (e : string).
Arguments Returned {A} a.
Arguments Raised {A} e.

(** A loaded model: [model.predict_entities(text, labels)]. *)
Record GLiNER : Type := mkModel {
  predict_entities : string -> list string -> outcome (list Ent)
}.

(** The body of [load_model], lines 99-106, at its first call for
    [model_name]; [from_pretrained] is [GLiNER.from_pretrained]. *)
Definition load_model (from_pretrained : string -> outcome GLiNER)
    (model_name : string) : T (option GLiNER) :=
  call (StSpinner "Loading GLiNER model...");;
  match from_pretrained model_name with
  | Returned model => mret (Some model)
  | Raised e => call (StError ("Error loading model: " +:+ e));; mret None
  end.

(** Lines 108-178.  [process_button], [text_input], [model_name] and
    [custom_label_input] are the values of the widgets; a loaded model
    is true in [if model]. *)
Definition results_tab (from_pretrained : string -> outcome GLiNER)
    (process_button : bool)
    (text_input model_name custom_label_input : string) : T unit :=
  if process_button && bool_decide (text_input ≠ EmptyString) then
    model ← load_model from_pretrained model_name;
    match model with
    | Some model =>
        let labels := parse_labels custom_label_input in
        call (StSpinner "Processing text...");;
        match predict_entities model text_input labels with
        | Returned ents =>
            entities ← new_list ents;
            lift (show_results text_input entities)
        | Raised e => call (StError ("Error processing text: " +:+ e))
        end
    | None => mret tt
    end
  else if process_button && bool_decide (text_input = EmptyString) then
    call (StWarning "Please enter some text to process.")
  else
    call (Element (Info "Enter your text in the 'Text Input' tab and click 'Process Text' to see results here.")).

(** The calls a computation makes, after those already made. *)
Definition calls_of (m : T unit) (τ : app) : list st_call :=
  drop (length (alog τ)) (alog (runT m τ)).

(** A string is in another one: its characters, in order, with gaps
    allowed. *)
Definition subsequence (s t : string) : Prop :=
  PyStrMethods.chars s `sublist_of` PyStrMethods.chars t.


(** * Properties *)

(** ** Strings *)

Module PyStrFacts.
Import PyStr.

Lemma app_cons c s t : String c s +:+ t = String c (s +:+ t).
Proof. reflexivity. Qed.

Lemma app_nil_l s : EmptyString +:+ s = s.
Proof. reflexivity. Qed.

Lemma app_nil_r s : s +:+ EmptyString = s.
Proof. induction s as [|c s IH]; [done|]. by rewrite app_cons, IH. Qed.

Lemma app_assoc s t u : (s +:+ t) +:+ u = s +:+ (t +:+ u).
Proof. induction s as [|c s IH]; [done|]. by rewrite !app_cons, IH. Qed.


Lemma drop_0 s : drop 0 s = s.
Proof. by destruct s. Qed.

Lemma take_0 s : take 0 s = EmptyString.
Proof. by destruct s. Qed.

Lemma take_drop n s : take n s +:+ drop n s = s.
Proof.
  revert s. induction n as [|n IH]; intros [|c s]; simpl; try done.
  by rewrite app_cons, IH.
Qed.

Lemma drop_all n s : (String.length s <= n)%nat -> drop n s = EmptyString.
Proof.
  revert s. induction n as [|n IH]; intros [|c s]; simpl; intros Hn;
    try done; try lia.
  apply IH. lia.
Qed.

Lemma take_all n s : (String.length s <= n)%nat -> take n s = s.
Proof.
  revert s. induction n as [|n IH]; intros [|c s]; simpl; intros Hn;
    try done; try lia.
  f_equal. apply IH. lia.
Qed.

Lemma length_drop n s : String.length (drop n s) = (String.length s - n)%nat.
Proof. revert s. induction n as [|n IH]; intros [|c s]; simpl; auto. Qed.

Lemma length_take n s :
  String.length (take n s) = Nat.min n (String.length s).
Proof.
  revert s. induction n as [|n IH]; intros [|c s]; simpl; auto.
Qed.

Lemma drop_drop n m s : drop n (drop m s) = drop (m + n) s.
Proof.
  revert s. induction m as [|m IH]; intros s; simpl; [done|].
  destruct s as [|c s]; [by destruct n|]. apply IH.
Qed.

Lemma take_take_drop n m s :
  take n s +:+ take m (drop n s) = take (n + m) s.
Proof.
  revert s. induction n as [|n IH]; intros s; simpl; [done|].
  destruct s as [|c s]; [by destruct m|].
  by rewrite app_cons, IH.
Qed.

Lemma len_nonneg s : 0 <= len s.
Proof. unfold len. lia. Qed.

Lemma adjust_range n i : 0 <= n -> 0 <= adjust n i <= n.
Proof. unfold adjust. intros Hn. destruct (Z.ltb_spec i 0); lia. Qed.

Lemma adjust_id n i : 0 <= i <= n -> adjust n i = i.
Proof. unfold adjust. intros Hi. destruct (Z.ltb_spec i 0); lia. Qed.

Lemma adjust_mono n i j : 0 <= i <= j -> adjust n i <= adjust n j.
Proof.
  unfold adjust. intros Hij.
  destruct (Z.ltb_spec i 0), (Z.ltb_spec j 0); lia.
Qed.

Lemma adjust_beyond n i : 0 <= n <= i -> adjust n i = n.
Proof. unfold adjust. intros Hi. destruct (Z.ltb_spec i 0); lia. Qed.

(** [s[i:j]] in terms of the adjusted bounds, without the test. *)
Lemma slice_take_drop s i j :
  slice s i j =
    take (Z.to_nat (adjust (len s) j - adjust (len s) i))
         (drop (Z.to_nat (adjust (len s) i)) s).
Proof.
  unfold slice. destruct (Z.ltb_spec (adjust (len s) i) (adjust (len s) j)) as [Hlt|Hge];
    [done|].
  replace (Z.to_nat _) with O by lia. by rewrite take_0.
Qed.

Lemma slice_valid s i j :
  0 <= i <= j -> j <= len s ->
  slice s i j = take (Z.to_nat (j - i)) (drop (Z.to_nat i) s).
Proof.
  intros Hij Hj. rewrite slice_take_drop, !adjust_id by lia. done.
Qed.

Lemma slice_from_valid s i :
  0 <= i <= len s -> slice_from s i = drop (Z.to_nat i) s.
Proof. intros Hi. unfold slice_from. by rewrite adjust_id. Qed.

Lemma slice_from_0 s : slice_from s 0 = s.
Proof. unfold slice_from, adjust. simpl. by rewrite Z.min_l, drop_0 by apply len_nonneg. Qed.

(** A slice followed by the rest of the string. *)
Lemma slice_app_slice_from s i j :
  0 <= i <= j -> j <= len s ->
  slice s i j +:+ slice_from s j = slice_from s i.
Proof.
  intros Hij Hj. rewrite slice_valid, !slice_from_valid by lia.
  replace (Z.to_nat j) with (Z.to_nat i + Z.to_nat (j - i))%nat by lia.
  rewrite <- drop_drop. apply take_drop.
Qed.

(** Two adjacent slices. *)
Lemma slice_app_slice s i j k :
  0 <= i <= j -> j <= k <= len s ->
  slice s i j +:+ slice s j k = slice s i k.
Proof.
  intros Hij Hjk. rewrite !slice_valid by lia.
  replace (Z.to_nat j) with (Z.to_nat i + Z.to_nat (j - i))%nat by lia.
  rewrite <- drop_drop, take_take_drop. f_equal. lia.
Qed.

Lemma length_slice s i j :
  Z.of_nat (String.length (slice s i j)) =
    Z.max 0 (adjust (len s) j - adjust (len s) i).
Proof.
  rewrite slice_take_drop, length_take, length_drop.
  pose proof (adjust_range (len s) i (len_nonneg s)).
  pose proof (adjust_range (len s) j (len_nonneg s)).
  unfold len in *. lia.
Qed.

(** The bounds of an empty slice: the adjusted start is not below the
    adjusted end. *)
Lemma slice_empty s i j :
  adjust (len s) j <= adjust (len s) i -> slice s i j = EmptyString.
Proof.
  intros Hle. unfold slice.
  by destruct (Z.ltb_spec (adjust (len s) i) (adjust (len s) j)); [lia|].
Qed.

(** A slice is a piece of the string, at the adjusted start. *)
Lemma slice_substring s i j :
  s = take (Z.to_nat (adjust (len s) i)) s +:+ slice s i j
        +:+ drop (Z.to_nat (Z.max (adjust (len s) i) (adjust (len s) j))) s.
Proof.
  rewrite slice_take_drop.
  pose proof (adjust_range (len s) i (len_nonneg s)).
  set (lo := adjust (len s) i) in *. set (hi := adjust (len s) j).
  replace (Z.to_nat (Z.max lo hi)) with (Z.to_nat lo + Z.to_nat (hi - lo))%nat by lia.
  rewrite <- drop_drop, take_drop, take_drop. done.
Qed.

End PyStrFacts.

(** ** The stable sort *)

Section ListSortFacts.
Context {A : Type} (key : A -> Z).

Local Abbreviation le_key := (le_by key).

Lemma insert_by_perm x l : insert_by key x l ≡ₚ x :: l.
Proof.
  induction l as [|y l IH]; simpl; [done|].
  destruct (key x <=? key y); [done|].
  rewrite IH. apply perm_swap.
Qed.

Lemma list_sort_perm l : list_sort key l ≡ₚ l.
Proof.
  induction l as [|x l IH]; simpl; [done|].
  by rewrite insert_by_perm, IH.
Qed.

Lemma length_list_sort l : length (list_sort key l) = length l.
Proof. apply Permutation_length, list_sort_perm. Qed.

Lemma insert_by_sorted x l :
  StronglySorted le_key l -> StronglySorted le_key (insert_by key x l).
Proof.
  induction 1 as [|y l Hs IH Hy]; simpl.
  - repeat constructor.
  - destruct (Z.leb_spec (key x) (key y)) as [Hle|Hgt].
    + constructor; [by constructor|].
      constructor; [done|].
      eapply Forall_impl; [exact Hy|]. unfold le_by. intros z Hz. lia.
    + constructor; [done|].
      rewrite insert_by_perm. constructor; [unfold le_by; lia|done].
Qed.

Lemma list_sort_sorted l : StronglySorted le_key (list_sort key l).
Proof.
  induction l as [|x l IH]; simpl; [constructor|].
  by apply insert_by_sorted.
Qed.

(** Elements with the same key are not reordered. *)
Lemma insert_by_stable k x l :
  filter (fun y => key y = k) (insert_by key x l)
  = filter (fun y => key y = k) (x :: l).
Proof.
  induction l as [|y l IH]; simpl; [done|].
  destruct (Z.leb_spec (key x) (key y)) as [Hle|Hgt]; [done|].
  rewrite (filter_cons _ y (insert_by key x l)), IH, !filter_cons.
  repeat case_decide; try done. lia.
Qed.

Lemma list_sort_stable k l :
  filter (fun y => key y = k) (list_sort key l)
  = filter (fun y => key y = k) l.
Proof.
  induction l as [|x l IH]; simpl; [done|].
  by rewrite insert_by_stable, !filter_cons, IH.
Qed.

(** Two lists in order of the key that agree on the elements of every
    key, in their order, are equal. *)
Lemma sorted_stable_unique l1 l2 :
  StronglySorted le_key l1 -> StronglySorted le_key l2 ->
  (forall k, filter (fun y => key y = k) l1 = filter (fun y => key y = k) l2) ->
  l1 = l2.
Proof.
  intros Hs1. revert l2.
  induction Hs1 as [|x l1 Hs1 IH Hx]; intros l2 Hs2 Hf.
  - destruct l2 as [|y l2]; [done|].
    specialize (Hf (key y)). rewrite filter_cons_True in Hf by done. done.
  - destruct Hs2 as [|y l2 Hs2 Hy].
    { specialize (Hf (key x)). rewrite filter_cons_True in Hf by done. done. }
    assert (Hkey : key x = key y).
    { rewrite Forall_forall in Hx, Hy. unfold le_by in Hx, Hy.
      destruct (decide (key x = key y)) as [|Hne]; [done|].
      assert (Hy1 : y ∈ l1).
      { pose proof (Hf (key y)) as H. rewrite (filter_cons_True _ y) in H by done.
        rewrite filter_cons_False in H by done.
        eapply (list_elem_of_filter (fun z => key z = key y)).
        rewrite H. apply list_elem_of_here. }
      assert (Hx2 : x ∈ l2).
      { pose proof (Hf (key x)) as H. rewrite (filter_cons_True _ x) in H by done.
        rewrite filter_cons_False in H by done.
        eapply (list_elem_of_filter (fun z => key z = key x)).
        rewrite <- H. apply list_elem_of_here. }
      specialize (Hx _ Hy1). specialize (Hy _ Hx2). lia. }
    pose proof (Hf (key x)) as Hhead.
    rewrite (filter_cons_True _ x), (filter_cons_True _ y) in Hhead by done.
    injection Hhead as -> _. f_equal. apply IH; [done|].
    intros k. specialize (Hf k). rewrite !filter_cons in Hf.
    case_decide; [by injection Hf|done].
Qed.

(** So every stable sort by the key computes [list_sort]. *)
Lemma stable_sort_is_list_sort l out :
  StronglySorted le_key out ->
  (forall k, filter (fun y => key y = k) out = filter (fun y => key y = k) l) ->
  out = list_sort key l.
Proof.
  intros Hs Hf. apply sorted_stable_unique; [done|apply list_sort_sorted|].
  intros k. by rewrite list_sort_stable.
Qed.

(** A list already in order is left as it is. *)
Lemma list_sort_id l : StronglySorted le_key l -> list_sort key l = l.
Proof.
  induction 1 as [|x l Hs IH Hx]; simpl; [done|].
  rewrite IH. destruct Hx as [|y l Hxy _]; simpl; [done|].
  unfold le_by in Hxy. by destruct (Z.leb_spec (key x) (key y)); [|lia].
Qed.

Lemma sorted_neighbours l :
  StronglySorted le_key l -> neighbours le_key l.
Proof.
  induction 1 as [|x l Hs IH Hx]; intros i a b Ha Hb; [done|].
  destruct i as [|i]; simpl in *.
  - injection Ha as <-. rewrite Forall_forall in Hx.
    apply Hx. by eapply list_elem_of_lookup_2.
  - by eapply IH.
Qed.

End ListSortFacts.

(** ** The loop and the program *)

Lemma concat_app l1 l2 :
  PyStr.concat (l1 ++ l2) = PyStr.concat l1 +:+ PyStr.concat l2.
Proof.
  induction l1 as [|s l1 IH]; [done|].
  change (s +:+ PyStr.concat (l1 ++ l2) = (s +:+ PyStr.concat l1) +:+ PyStr.concat l2).
  by rewrite IH, PyStrFacts.app_assoc.
Qed.

Lemma flatten_app cs1 cs2 : flatten (cs1 ++ cs2) = flatten cs1 +:+ flatten cs2.
Proof. unfold flatten. by rewrite map_app, concat_app. Qed.

Lemma strip_markup_app cs1 cs2 :
  strip_markup (cs1 ++ cs2) = strip_markup cs1 +:+ strip_markup cs2.
Proof. unfold strip_markup. by rewrite omap_app, concat_app. Qed.

(** The marked loop appends [Text (text[last_idx:start])] and the three
    chunks of the span. *)
Lemma loop_body_chunks_eq co text cs last_idx e :
  loop_body_chunks co text (cs, last_idx) e
  = (cs ++ Text (PyStr.slice text last_idx (start e)) :: span_chunks co text e,
     end_ e).
Proof. unfold loop_body_chunks, span_chunks. by rewrite <- app_assoc. Qed.

(** The marked loop builds the string of the loop of the source. *)
Lemma loop_body_flatten co text cs last_idx e :
  loop_body co text (flatten cs, last_idx) e
  = (flatten (loop_body_chunks co text (cs, last_idx) e).1,
     (loop_body_chunks co text (cs, last_idx) e).2).
Proof.
  rewrite loop_body_chunks_eq. unfold loop_body. simpl. f_equal.
  rewrite flatten_app. unfold flatten, span_chunks. simpl.
  change (PyStr.concat []) with EmptyString.
  by rewrite !PyStrFacts.app_nil_r, !PyStrFacts.app_assoc.
Qed.

Lemma foldl_cons {A B} (f : A -> B -> A) a x l :
  foldl f a (x :: l) = foldl f (f a x) l.
Proof. reflexivity. Qed.

Lemma foldl_chunks_flatten co text ents cs last_idx :
  foldl (loop_body co text) (flatten cs, last_idx) ents
  = (flatten (foldl (loop_body_chunks co text) (cs, last_idx) ents).1,
     (foldl (loop_body_chunks co text) (cs, last_idx) ents).2).
Proof.
  revert cs last_idx. induction ents as [|e ents IH]; intros cs last_idx; [done|].
  rewrite !foldl_cons, loop_body_flatten.
  destruct (loop_body_chunks co text (cs, last_idx) e) as [cs' k]. apply IH.
Qed.

Lemma flatten_highlight_chunks co text ents :
  flatten (highlight_chunks co text ents) = highlight co text ents.
Proof.
  unfold highlight_chunks, highlight.
  pose proof (foldl_chunks_flatten co text ents [] 0) as H.
  change (flatten []) with EmptyString in H. rewrite H.
  destruct (foldl (loop_body_chunks co text) ([], 0) ents) as [cs k]. simpl.
  rewrite flatten_app. f_equal. apply PyStrFacts.app_nil_r.
Qed.

(** The loop of the program reads [color_options] and changes nothing. *)
Lemma for_each_for_body text ents acc σ :
  for_each (for_body text) ents acc σ
  = (foldl (loop_body (color_options σ) text) acc ents, σ).
Proof.
  revert acc. induction ents as [|e ents IH]; intros [hl k]; [done|].
  simpl. unfold mbind, M_bind. simpl. by rewrite IH.
Qed.

(** [show_results] in one step: the list object is sorted in place, and
    either the table and the markup or the notice is displayed. *)
Lemma show_results_run text l σ :
  let ents := list_sort start (lists σ !!! l) in
  run (show_results text l) σ
  = {| color_options := color_options σ;
       lists := <[l := ents]> (lists σ);
       ui := ui σ ++ (if bool_decide (ents ≠ [])
                      then results_shown (color_options σ) text ents
                      else [Info "No entities were detected in the provided text."]) |}.
Proof.
  intros ents. unfold run, show_results, mbind, M_bind, sort_in_place, deref. simpl.
  rewrite lookup_total_insert_eq. fold ents.
  destruct (bool_decide (ents ≠ [])); [|done].
  rewrite for_each_for_body. simpl.
  unfold results_shown, highlight.
  destruct (foldl _ _ ents) as [hl k]. simpl.
  by rewrite <- !app_assoc.
Qed.

(** ** Round trip of the rendering *)

Lemma strip_markup_span co text e :
  strip_markup (span_chunks co text e) = PyStr.slice text (start e) (end_ e).
Proof. unfold strip_markup, span_chunks. simpl. apply PyStrFacts.app_nil_r. Qed.

Lemma strip_markup_text s : strip_markup [Text s] = s.
Proof. unfold strip_markup. simpl. apply PyStrFacts.app_nil_r. Qed.

Lemma strip_markup_cons_text s cs :
  strip_markup (Text s :: cs) = s +:+ strip_markup cs.
Proof. reflexivity. Qed.

(** Loop invariant: the text stripped from [highlighted], followed by
    [text[last_idx:]], does not change along the loop. *)
Lemma strip_markup_foldl co text ents cs last_idx :
  0 <= last_idx <= PyStr.len text ->
  Forall (valid_span text) ents ->
  (forall e, head ents = Some e -> last_idx <= start e) ->
  non_overlapping ents ->
  let r := foldl (loop_body_chunks co text) (cs, last_idx) ents in
  strip_markup r.1 +:+ PyStr.slice_from text r.2
  = strip_markup cs +:+ PyStr.slice_from text last_idx.
Proof.
  revert cs last_idx.
  induction ents as [|e ents IH]; intros cs last_idx Hk Hvalid Hhead Hno; [done|].
  apply Forall_cons in Hvalid as [(Hs & Hse & He) Hvalid].
  specialize (Hhead e eq_refl). destruct Hno as [Hnext Hno].
  cbv zeta. rewrite foldl_cons, loop_body_chunks_eq.
  rewrite IH; [|lia|done| |done].
  - rewrite strip_markup_app, strip_markup_cons_text,
      strip_markup_span, !PyStrFacts.app_assoc.
    f_equal. rewrite PyStrFacts.slice_app_slice_from by lia.
    apply PyStrFacts.slice_app_slice_from; lia.
  - intros e' He'. destruct ents as [|e2 ents]; [done|].
    by injection He' as <-.
Qed.

(** The marked output of valid spans, each ending before the next
    begins, strips to the text. *)
Lemma strip_markup_highlight_chunks co text ents :
  Forall (valid_span text) ents ->
  non_overlapping ents ->
  strip_markup (highlight_chunks co text ents) = text.
Proof.
  intros Hvalid Hno. unfold highlight_chunks.
  pose proof (strip_markup_foldl co text ents [] 0) as H.
  cbv zeta in H.
  destruct (foldl (loop_body_chunks co text) ([], 0) ents) as [cs k].
  rewrite strip_markup_app, strip_markup_text. simpl in H. rewrite H.
  - apply PyStrFacts.slice_from_0.
  - pose proof (PyStrFacts.len_nonneg text). lia.
  - done.
  - intros e He. destruct ents as [|e1 ents]; [done|]. injection He as <-.
    apply Forall_cons in Hvalid as [(Hs & _) _]. done.
  - done.
Qed.

(** The output marked piece by piece is the string of the source too. *)
Lemma join_pieces_app ps1 ps2 :
  join_pieces (ps1 ++ ps2) = join_pieces ps1 +:+ join_pieces ps2.
Proof. unfold join_pieces. by rewrite map_app, concat_app. Qed.

Lemma join_span_pieces co text e :
  join_pieces (span_pieces co text e)
  = span_open (color_for co (label e))
      +:+ PyStr.slice text (start e) (end_ e) +:+ span_close (label e).
Proof.
  unfold join_pieces, span_pieces, span_open, span_close, highlight_tag,
    label_tag, close_tag.
  cbn [map piece_str PyStr.concat fold_right].
  rewrite !PyStrFacts.app_assoc, PyStrFacts.app_nil_r. reflexivity.
Qed.

Lemma foldl_pieces_join co text ents ps last_idx :
  foldl (loop_body co text) (join_pieces ps, last_idx) ents
  = (join_pieces (foldl (loop_body_pieces co text) (ps, last_idx) ents).1,
     (foldl (loop_body_pieces co text) (ps, last_idx) ents).2).
Proof.
  revert ps last_idx. induction ents as [|e ents IH]; intros ps last_idx; [done|].
  rewrite !foldl_cons. unfold loop_body_pieces at 2 4, loop_body at 2.
  rewrite <- IH. do 2 f_equal.
  change (Plain (PyStr.slice text last_idx (start e)) :: span_pieces co text e)
    with ([Plain (PyStr.slice text last_idx (start e))] ++ span_pieces co text e).
  rewrite !join_pieces_app, join_span_pieces.
  change (join_pieces [Plain (PyStr.slice text last_idx (start e))])
    with (PyStr.slice text last_idx (start e) +:+ EmptyString).
  by rewrite PyStrFacts.app_nil_r, !PyStrFacts.app_assoc.
Qed.

Lemma join_highlight_pieces co text ents :
  join_pieces (highlight_pieces co text ents) = highlight co text ents.
Proof.
  unfold highlight_pieces, highlight.
  pose proof (foldl_pieces_join co text ents [] 0) as H.
  change (join_pieces []) with EmptyString in H. rewrite H.
  destruct (foldl (loop_body_pieces co text) ([], 0) ents) as [ps k].
  cbn [fst snd]. rewrite join_pieces_app. f_equal. apply PyStrFacts.app_nil_r.
Qed.




(** ** The order after the sort *)

(** C4. For every raw entity list, the sort yields a permutation of the
    list in ascending order of [start]; spans with the same [start] keep
    the order in which they arrived (the sort is stable and compares no
    [end]), so the output order is determined by the input list. *)
Theorem sort_by_start_stable (ents : list Ent) :
  list_sort start ents ≡ₚ ents /\
  StronglySorted (le_by start) (list_sort start ents) /\
  forall k : Z,
    filter (fun e => start e = k) (list_sort start ents)
    = filter (fun e => start e = k) ents.
Proof.
  split; [apply list_sort_perm|].
  split; [apply list_sort_sorted|].
  intros k. apply list_sort_stable.
Qed.

(** Two spans that start at 0 arrive longer one first: the sort leaves
    the longer one first. *)
Lemma sort_ties_not_by_end :
  lists (run (show_results "0123456789" entities_loc)
           (state_after_predict [span 0 10 "a"; span 0 5 "b"])) !! entities_loc
  = Some [span 0 10 "a"; span 0 5 "b"] /\
  start (span 0 10 "a") = start (span 0 5 "b") /\
  end_ (span 0 5 "b") < end_ (span 0 10 "a").
Proof. split; [by vm_compute|]. split; [done|]. simpl. lia. Qed.

(** C6. After the sort, of two neighbours in the list the later one does
    not start before the earlier one: the starts are non-decreasing, and
    two neighbours may start at the same offset. *)
Theorem sorted_starts_non_decreasing (ents : list Ent) (i : nat) (e1 e2 : Ent) :
  list_sort start ents !! i = Some e1 ->
  list_sort start ents !! S i = Some e2 ->
  start e1 <= start e2.
Proof.
  intros H1 H2.
  exact (sorted_neighbours start _ (list_sort_sorted start ents) i e1 e2 H1 H2).
Qed.

(** The spans [10,14] and [0,4], returned in that order. *)
Lemma sorted_starts_non_decreasing_witness :
  list_sort start [span 10 14 "b"; span 0 4 "a"] !! 0%nat = Some (span 0 4 "a") /\
  list_sort start [span 10 14 "b"; span 0 4 "a"] !! 1%nat = Some (span 10 14 "b") /\
  start (span 0 4 "a") <= start (span 10 14 "b").
Proof.
  assert (H1 : list_sort start [span 10 14 "b"; span 0 4 "a"] !! 0%nat
               = Some (span 0 4 "a")) by reflexivity.
  assert (H2 : list_sort start [span 10 14 "b"; span 0 4 "a"] !! 1%nat
               = Some (span 10 14 "b")) by reflexivity.
  split; [exact H1|]. split; [exact H2|].
  exact (sorted_starts_non_decreasing _ 0%nat _ _ H1 H2).
Defined.

(** Two neighbours of the sorted list with the same start. *)
Lemma sorted_starts_may_repeat :
  lists (run (show_results "0123456789" entities_loc)
           (state_after_predict [span 3 9 "a"; span 0 2 "c"; span 3 5 "b"]))
    !! entities_loc
  = Some [span 0 2 "c"; span 3 9 "a"; span 3 5 "b"] /\
  start (span 3 9 "a") = start (span 3 5 "b").
Proof. split; [by vm_compute|reflexivity]. Qed.

(** ** The sort is in place *)

(** C5. The sort works on the caller's list object: after the call the
    object holds a permutation of its former elements, in stable order
    of [start]; every other list object is untouched; and the object is
    unchanged when it was already in order of [start]. *)
Theorem sort_mutates_caller_list (text : string) (l : loc) (σ : pystate)
    (ents : list Ent) :
  lists σ !! l = Some ents ->
  lists (run (show_results text l) σ) !! l = Some (list_sort start ents) /\
  list_sort start ents ≡ₚ ents /\
  (forall l', l' ≠ l -> lists (run (show_results text l) σ) !! l' = lists σ !! l') /\
  (StronglySorted (le_by start) ents -> lists (run (show_results text l) σ) = lists σ).
Proof.
  intros Hl. rewrite show_results_run. simpl.
  rewrite (lookup_total_correct _ _ _ Hl).
  split; [apply lookup_insert_eq|].
  split; [apply list_sort_perm|].
  split.
  - intros l' Hne. by apply lookup_insert_ne.
  - intros Hsorted. rewrite (list_sort_id start ents Hsorted).
    by apply insert_id.
Qed.

(** The list object holding [10,14] then [0,4]. *)
Lemma sort_mutates_caller_list_witness :
  lists (state_after_predict [span 10 14 "b"; span 0 4 "a"]) !! entities_loc
  = Some [span 10 14 "b"; span 0 4 "a"] /\
  lists (run (show_results "01234567890123456789" entities_loc)
           (state_after_predict [span 10 14 "b"; span 0 4 "a"])) !! entities_loc
  = Some (list_sort start [span 10 14 "b"; span 0 4 "a"]).
Proof.
  assert (Hl : lists (state_after_predict [span 10 14 "b"; span 0 4 "a"]) !! entities_loc
               = Some [span 10 14 "b"; span 0 4 "a"]) by reflexivity.
  split; [exact Hl|].
  exact (proj1 (sort_mutates_caller_list "01234567890123456789" entities_loc
                  (state_after_predict [span 10 14 "b"; span 0 4 "a"]) _ Hl)).
Defined.

(** The list the model returned, before and after the results are
    shown: the object no longer holds its elements in the same order. *)
Lemma caller_list_reordered :
  lists (state_after_predict [span 10 14 "b"; span 0 4 "a"]) !! entities_loc
  = Some [span 10 14 "b"; span 0 4 "a"] /\
  lists (run (show_results "01234567890123456789" entities_loc)
           (state_after_predict [span 10 14 "b"; span 0 4 "a"])) !! entities_loc
  = Some [span 0 4 "a"; span 10 14 "b"].
Proof. split; by vm_compute. Qed.

(** ** Spans out of range are kept *)

Lemma elem_of_foldl_chunks co text ents cs last_idx c :
  c ∈ cs \/ (exists e, e ∈ ents /\ c ∈ span_chunks co text e) ->
  c ∈ (foldl (loop_body_chunks co text) (cs, last_idx) ents).1.
Proof.
  revert cs last_idx.
  induction ents as [|e ents IH]; intros cs last_idx [Hc|(e' & He' & Hc)].
  - done.
  - by apply elem_of_nil in He'.
  - rewrite foldl_cons, loop_body_chunks_eq. apply IH. left.
    apply elem_of_app. by left.
  - rewrite foldl_cons, loop_body_chunks_eq. apply IH.
    apply elem_of_cons in He' as [->|He'].
    + left. apply elem_of_app. right. by apply elem_of_cons; right.
    + right. eauto.
Qed.

Lemma elem_of_highlight_chunks co text ents e c :
  e ∈ ents -> c ∈ span_chunks co text e -> c ∈ highlight_chunks co text ents.
Proof.
  intros He Hc. unfold highlight_chunks.
  pose proof (elem_of_foldl_chunks co text ents [] 0 c) as H.
  destruct (foldl (loop_body_chunks co text) ([], 0) ents) as [cs k].
  apply elem_of_app. left. apply H. right. eauto.
Qed.

Lemma entities_df_row_of text ents :
  entities_df text ents = row_of text <$> ents.
Proof. reflexivity. Qed.

(** C2. No span is excluded, whatever its offsets: for every text and
    every non-empty raw entity list, the table has one row per raw span
    and the row of every raw span is in it, the three chunks of its
    highlighted region are in the rendering, and what is displayed is the
    table and the markup (no error path is taken). *)
Theorem every_span_is_shown (text : string) (l : loc) (σ : pystate)
    (ents : list Ent) (e : Ent) :
  lists σ !! l = Some ents ->
  e ∈ ents ->
  let shown := list_sort start ents in
  ui (run (show_results text l) σ)
  = ui σ ++ results_shown (color_options σ) text shown /\
  length (entities_df text shown) = length ents /\
  row_of text e ∈ entities_df text shown /\
  (forall c, c ∈ span_chunks (color_options σ) text e ->
             c ∈ highlight_chunks (color_options σ) text shown) /\
  flatten (highlight_chunks (color_options σ) text shown)
  = highlight (color_options σ) text shown.
Proof.
  intros Hl He shown.
  assert (Hshown : e ∈ shown).
  { unfold shown. by rewrite (list_sort_perm start ents). }
  split.
  - rewrite show_results_run. simpl.
    rewrite (lookup_total_correct _ _ _ Hl). fold shown.
    rewrite bool_decide_true; [done|].
    intros Hnil. rewrite Hnil in Hshown. by apply elem_of_nil in Hshown.
  - split.
    { rewrite entities_df_row_of, length_fmap. apply length_list_sort. }
    split.
    { rewrite entities_df_row_of. by apply list_elem_of_fmap_2. }
    split.
    { intros c Hc. by eapply elem_of_highlight_chunks. }
    apply flatten_highlight_chunks.
Qed.

(** The span [{start: 10, end: 5}] has its row. *)
Lemma every_span_is_shown_witness :
  lists (state_after_predict [span 10 5 "x"]) !! entities_loc = Some [span 10 5 "x"] /\
  span 10 5 "x" ∈ [span 10 5 "x"] /\
  row_of "0123456789ab" (span 10 5 "x")
    ∈ entities_df "0123456789ab" (list_sort start [span 10 5 "x"]).
Proof.
  assert (Hl : lists (state_after_predict [span 10 5 "x"]) !! entities_loc
               = Some [span 10 5 "x"]) by reflexivity.
  assert (He : span 10 5 "x" ∈ [span 10 5 "x"]) by apply list_elem_of_here.
  split; [exact Hl|]. split; [exact He|].
  exact (proj1 (proj2 (proj2
           (every_span_is_shown "0123456789ab" entities_loc
              (state_after_predict [span 10 5 "x"]) _ _ Hl He)))).
Defined.

(** The span [{start: 10, end: 5}] on a text of 12 characters: it has a
    row in the table displayed, with an empty entity text, and a
    highlighted region in the markup. *)
Lemma inverted_span_is_displayed :
  ui (run (show_results "0123456789ab" entities_loc)
        (state_after_predict [span 10 5 "x"]))
  = [Subheader "Extracted Entities";
     Dataframe [{| Entity := EmptyString; Label := "x"; Start := 10; End_ := 5;
                   Score := PyInt 0 |}];
     Subheader "Highlighted Text";
     Markdown ("<div class=" +:+ dquote +:+ "results-container" +:+ dquote +:+ ">"
                 +:+ "0123456789"
                 +:+ span_open "#90caf9" +:+ EmptyString +:+ span_close "x"
                 +:+ "56789ab" +:+ "</div>")].
Proof. by vm_compute. Qed.

(** ** Overlapping spans *)

(** C3. For a span that starts inside the part already rendered
    ([0 <= start < last_idx]), the loop emits an empty plain-text region,
    emits the span's own highlighted region [text[start:end]], and sets
    [last_idx] to the span's [end] (there is no maximum with the former
    [last_idx]). *)
Theorem overlapping_span_step (co : gmap string string) (text : string)
    (cs : list chunk) (last_idx : Z) (e : Ent) :
  0 <= start e < last_idx ->
  loop_body_chunks co text (cs, last_idx) e
  = (cs ++ Text EmptyString :: span_chunks co text e, end_ e) /\
  loop_body co text (flatten cs, last_idx) e
  = (flatten (cs ++ Text EmptyString :: span_chunks co text e), end_ e).
Proof.
  intros Hov.
  assert (Hplain : PyStr.slice text last_idx (start e) = EmptyString).
  { apply PyStrFacts.slice_empty. apply PyStrFacts.adjust_mono. lia. }
  split.
  - by rewrite loop_body_chunks_eq, Hplain.
  - by rewrite loop_body_flatten, loop_body_chunks_eq, Hplain.
Qed.

(** Scenario C: the span [5,15] when [last_idx] is 10. *)
Lemma overlapping_span_step_witness :
  0 <= start (span 5 15 "b") < 10 /\
  loop_body_chunks default_color_options "0123456789abcdefghij"
    ([], 10) (span 5 15 "b")
  = ([] ++ Text EmptyString
        :: span_chunks default_color_options "0123456789abcdefghij" (span 5 15 "b"),
     end_ (span 5 15 "b")).
Proof.
  assert (Hov : 0 <= start (span 5 15 "b") < 10) by (simpl; lia).
  split; [exact Hov|].
  exact (proj1 (overlapping_span_step default_color_options "0123456789abcdefghij"
                  [] 10 (span 5 15 "b") Hov)).
Defined.

(** The spans [0,10] and [2,5] of a text of 10 characters: after the
    second one [last_idx] is 5, not the maximum 10, and the stripped
    output holds the characters 2 to 9 twice. *)
Lemma nested_span_rewinds_cursor :
  (loop_body_chunks default_color_options "0123456789" ([], 10) (span 2 5 "b")).2 = 5 /\
  Z.max 10 (end_ (span 2 5 "b")) = 10 /\
  strip_markup (highlight_chunks default_color_options "0123456789"
                  [span 0 10 "a"; span 2 5 "b"])
  = "0123456789" +:+ "234" +:+ "56789".
Proof. split; [reflexivity|]. split; [reflexivity|]. by vm_compute. Qed.

(** ** The table projection *)



(** ** No entities *)

(** C8. For every text, an empty entity list is not an error, but
    nothing is rendered for it: the test [if entities] fails, no table
    and no markup are displayed, and the only output is the notice that
    no entities were detected; the list object is left as it was.  (The
    table of an empty list would have no row and the loop alone would
    give back the text.) *)
Theorem empty_list_shows_notice (text : string) (l : loc) (σ : pystate) :
  lists σ !! l = Some [] ->
  run (show_results text l) σ
  = {| color_options := color_options σ;
       lists := lists σ;
       ui := ui σ ++ [Info "No entities were detected in the provided text."] |} /\
  entities_df text [] = [] /\
  highlight (color_options σ) text [] = text.
Proof.
  intros Hl. split; [|split; [reflexivity|]].
  - rewrite show_results_run. simpl.
    rewrite (lookup_total_correct _ _ _ Hl). simpl.
    by rewrite (insert_id _ _ _ Hl).
  - unfold highlight. simpl. apply PyStrFacts.slice_from_0.
Qed.

(** An empty list returned for "Take amoxicillin now". *)
Lemma empty_list_shows_notice_witness :
  lists (state_after_predict []) !! entities_loc = Some [] /\
  ui (run (show_results "Take amoxicillin now" entities_loc) (state_after_predict []))
  = ui (state_after_predict [])
      ++ [Info "No entities were detected in the provided text."].
Proof.
  assert (Hl : lists (state_after_predict []) !! entities_loc = Some [])
    by reflexivity.
  split; [exact Hl|].
  exact (f_equal ui (proj1 (empty_list_shows_notice "Take amoxicillin now"
                              entities_loc (state_after_predict []) Hl))).
Defined.

(** With no entity, what is displayed holds neither a table nor the
    text: it is the notice alone. *)
Lemma empty_list_renders_nothing :
  ui (run (show_results "Take amoxicillin now" entities_loc) (state_after_predict []))
  = [Info "No entities were detected in the provided text."].
Proof. by vm_compute. Qed.

(** ** The colour lookup *)

(** C9. The lookup [color_options.get(label, "#90caf9")] returns the
    colour recorded for the label when there is one and the fallback
    colour otherwise; it leaves the whole state as it is, and neither the
    rendering loop nor the results tab changes [color_options]. *)
Theorem color_lookup_pure (text : string) (l : loc) (σ : pystate)
    (lbl : string) (ents : list Ent) (acc : string * Z) :
  (dict_get lbl "#90caf9" σ).1
  = match color_options σ !! lbl with Some c => c | None => "#90caf9" end /\
  (dict_get lbl "#90caf9" σ).1 = color_for (color_options σ) lbl /\
  (dict_get lbl "#90caf9" σ).2 = σ /\
  (for_each (for_body text) ents acc σ).2 = σ /\
  color_options (run (show_results text l) σ) = color_options σ.
Proof.
  split; [reflexivity|]. split; [reflexivity|]. split; [reflexivity|].
  split.
  - by rewrite for_each_for_body.
  - by rewrite show_results_run.
Qed.

(** ** Slicing never fails *)

(** C10. For every text and all integer offsets, slicing is total: the
    slice is the piece of the text between the adjusted bounds (a
    negative offset counts from the end, and every offset is cut to the
    range of the text); it is empty exactly when the adjusted end is not
    beyond the adjusted start, in particular for an inverted range of
    non-negative offsets and for a start at or beyond the end of the
    text.  So for every entity list something is displayed: the table and
    the markup, or the notice. *)
Theorem slicing_total (text : string) (i j : Z) (l : loc) (σ : pystate) :
  let lo := PyStr.adjust (PyStr.len text) i in
  let hi := PyStr.adjust (PyStr.len text) j in
  text = PyStr.take (Z.to_nat lo) text +:+ PyStr.slice text i j
           +:+ PyStr.drop (Z.to_nat (Z.max lo hi)) text /\
  PyStr.len (PyStr.slice text i j) = Z.max 0 (hi - lo) /\
  (PyStr.slice text i j = EmptyString <-> hi <= lo) /\
  (0 <= j <= i -> PyStr.slice text i j = EmptyString) /\
  (PyStr.len text <= i -> PyStr.slice text i j = EmptyString) /\
  exists shown,
    shown ≠ [] /\ ui (run (show_results text l) σ) = ui σ ++ shown.
Proof.
  intros lo hi.
  pose proof (PyStrFacts.len_nonneg text) as Hlen.
  pose proof (PyStrFacts.adjust_range (PyStr.len text) i Hlen) as Hlo.
  pose proof (PyStrFacts.adjust_range (PyStr.len text) j Hlen) as Hhi.
  fold lo in Hlo. fold hi in Hhi.
  split; [apply PyStrFacts.slice_substring|].
  split; [apply PyStrFacts.length_slice|].
  split; [|split; [|split]].
  - split; [|apply PyStrFacts.slice_empty].
    intros Hempty.
    pose proof (PyStrFacts.length_slice text i j) as H.
    rewrite Hempty in H. simpl in H. fold lo hi in H. lia.
  - intros Hji. apply PyStrFacts.slice_empty, PyStrFacts.adjust_mono. lia.
  - intros Hi. apply PyStrFacts.slice_empty.
    rewrite (PyStrFacts.adjust_beyond _ i) by lia. fold hi. lia.
  - rewrite show_results_run. simpl.
    destruct (bool_decide _); eexists; (split; [|reflexivity]); done.
Qed.

(** An inverted range whose end is negative, and a range that ends
    beyond the text: neither slice is empty. *)
Lemma inverted_slice_not_empty :
  -1 <= 5 /\
  PyStr.slice "0123456789" 5 (-1) = "5678" /\
  PyStr.len "0123456789" < 100 /\
  PyStr.slice "0123456789" 3 100 = "3456789" /\
  ui (run (show_results "0123456789" entities_loc)
        (state_after_predict [span 5 (-1) "x"])) !! 1%nat
  = Some (Dataframe [{| Entity := "5678"; Label := "x"; Start := 5; End_ := -1;
                        Score := PyInt 0 |}]).
Proof.
  split; [lia|]. split; [reflexivity|]. split; [by vm_compute|].
  split; [reflexivity|]. by vm_compute.
Qed.

(** ** From the raw list to the markup *)

Lemma disjoint_sym a b : disjoint a b -> disjoint b a.
Proof. unfold disjoint. tauto. Qed.

Lemma insert_by_pairwise_disjoint x l :
  Forall (disjoint x) l -> pairwise_disjoint l ->
  pairwise_disjoint (insert_by start x l).
Proof.
  induction l as [|y l IH]; intros Hx Hl; simpl.
  - by split.
  - apply Forall_cons in Hx as [Hxy Hx]. destruct Hl as [Hy Hl].
    destruct (start x <=? start y).
    + split; [by constructor|by split].
    + split; [|by apply IH].
      rewrite insert_by_perm. constructor; [by apply disjoint_sym|done].
Qed.

Lemma list_sort_pairwise_disjoint l :
  pairwise_disjoint l -> pairwise_disjoint (list_sort start l).
Proof.
  induction l as [|x l IH]; intros Hl; [done|]. destruct Hl as [Hx Hl]. simpl.
  apply insert_by_pairwise_disjoint; [|by apply IH].
  by rewrite list_sort_perm.
Qed.

(** Valid spans in order of [start] that share no character: each ends
    before the next begins. *)
Lemma sorted_disjoint_non_overlapping text l :
  StronglySorted (le_by start) l -> Forall (valid_span text) l ->
  pairwise_disjoint l -> non_overlapping l.
Proof.
  induction 1 as [|x l Hs IH Hx]; intros Hvalid Hdis; [done|].
  apply Forall_cons in Hvalid as [_ Hvalid]. destruct Hdis as [Hd Hdis].
  split; [|by apply IH].
  destruct l as [|y l]; [done|].
  apply Forall_cons in Hx as [Hxy _]. apply Forall_cons in Hd as [[Hd|Hd] _];
    [done|].
  apply Forall_cons in Hvalid as [(_ & Hy & _) _]. unfold le_by in Hxy. lia.
Qed.

(** The results tab on a raw list, in any order, of valid spans that
    share no character: the markup displayed is the flattening of chunks
    that strip to the text. *)
Lemma shown_markup_round_trip text l σ ents :
  lists σ !! l = Some ents -> ents ≠ [] ->
  Forall (valid_span text) ents -> pairwise_disjoint ents ->
  ui (run (show_results text l) σ)
  = ui σ ++ results_shown (color_options σ) text (list_sort start ents) /\
  flatten (highlight_chunks (color_options σ) text (list_sort start ents))
  = highlight (color_options σ) text (list_sort start ents) /\
  strip_markup (highlight_chunks (color_options σ) text (list_sort start ents))
  = text.
Proof.
  intros Hl Hne Hvalid Hdis. split.
  - rewrite show_results_run. simpl. rewrite (lookup_total_correct _ _ _ Hl).
    rewrite bool_decide_true; [done|].
    intros Hnil. apply Hne, Permutation_nil_r.
    by rewrite <- Hnil, list_sort_perm.
  - split; [apply flatten_highlight_chunks|].
    apply strip_markup_highlight_chunks.
    + by rewrite list_sort_perm.
    + apply (sorted_disjoint_non_overlapping text).
      * apply list_sort_sorted.
      * by rewrite list_sort_perm.
      * by apply list_sort_pairwise_disjoint.
Qed.

(** Scenario B: spans [0,4] and [10,14] of a text of 20 characters,
    returned in the reverse order. *)
Example scenario_B :
  strip_markup (highlight_chunks default_color_options "01234567890123456789"
                  (list_sort start [span 10 14 "b"; span 0 4 "a"]))
  = "01234567890123456789" /\
  highlight_chunks default_color_options "01234567890123456789"
    (list_sort start [span 10 14 "b"; span 0 4 "a"])
  = [Text EmptyString; Tag (span_open "#90caf9"); Text "0123"; Tag (span_close "a");
     Text "456789"; Tag (span_open "#90caf9"); Text "0123"; Tag (span_close "b");
     Text "456789"].
Proof. split; by vm_compute. Qed.

(** ** Rounding *)

(** [div_half_even n d] is an integer nearest to [n / d]. *)
Lemma div_half_even_nearest n d :
  0 < d -> 2 * Z.abs (n - d * PyNum.div_half_even n d) <= d.
Proof.
  intros Hd. unfold PyNum.div_half_even.
  pose proof (Z.div_mod n d ltac:(lia)) as Hdm.
  pose proof (Z.mod_pos_bound n d Hd) as Hr.
  destruct (Z.compare_spec (2 * (n mod d)) d); [destruct (Z.even (n / d))| |]; lia.
Qed.

(** [round] on a few doubles, as Python prints them: 0.9234567 -> 0.923,
    0.0005 -> 0.001 (the double is above the tie), 1.0005 -> 1.0 (the
    double is below the tie), -0.0001 -> -0.0. *)
Example float_round_values :
  PyNum.float_round 0x1.d8cf510b8b4e8p-1 3 = 0x1.d89374bc6a7fp-1%float /\
  PyNum.float_round 0x1.0624dd2f1a9fcp-11 3 = 0x1.0624dd2f1a9fcp-10%float /\
  PyNum.float_round 0x1.0020c49ba5e35p+0 3 = 1%float /\
  PyNum.float_round (-0x1.a36e2eb1c432dp-14) 3 = (-0)%float.
Proof. repeat split; by vm_compute. Qed.

(** * The rest of the script *)

(** ** Splitting, stripping and the labels *)

Module PyStrMethodsFacts.
Import PyStrMethods.

Lemma chars_app s t : chars (s +:+ t) = chars s ++ chars t.
Proof.
  induction s as [|c s IH]; [done|].
  rewrite PyStrFacts.app_cons. simpl. by rewrite IH.
Qed.

Lemma chars_inj s t : chars s = chars t -> s = t.
Proof.
  revert t. induction s as [|c s IH]; intros [|d t] H; try done.
  simpl in H. injection H as -> H. f_equal. by apply IH.
Qed.

Lemma split_pieces_cons sep c s :
  split_pieces sep (String c s)
  = if decide (c = sep)
    then (EmptyString, (split_pieces sep s).1 :: (split_pieces sep s).2)
    else (String c (split_pieces sep s).1, (split_pieces sep s).2).
Proof. simpl. by destruct (split_pieces sep s). Qed.

Lemma split_eq sep s :
  split sep s = (split_pieces sep s).1 :: (split_pieces sep s).2.
Proof. unfold split. by destruct (split_pieces sep s). Qed.

Lemma split_cons_sep sep s :
  split sep (String sep s) = EmptyString :: split sep s.
Proof.
  rewrite !split_eq, split_pieces_cons. by rewrite decide_True.
Qed.

Lemma split_cons_other sep c s :
  c ≠ sep ->
  split sep (String c s)
  = String c (split_pieces sep s).1 :: (split_pieces sep s).2.
Proof.
  intros Hc. rewrite split_eq, split_pieces_cons. by rewrite decide_False.
Qed.

(** No piece of a split holds the separator. *)
Lemma split_no_sep sep s w : w ∈ split sep s -> sep ∉ chars w.
Proof.
  revert w. induction s as [|c s IH]; intros w Hw.
  - apply list_elem_of_singleton in Hw as ->. apply not_elem_of_nil.
  - rewrite split_eq in IH. destruct (decide (c = sep)) as [->|Hc].
    + rewrite split_cons_sep, split_eq in Hw.
      apply elem_of_cons in Hw as [->|Hw]; [apply not_elem_of_nil|by apply IH].
    + rewrite split_cons_other in Hw by done.
      apply elem_of_cons in Hw as [->|Hw].
      * simpl. apply not_elem_of_cons. split; [done|].
        apply IH, list_elem_of_here.
      * apply IH. by apply list_elem_of_further.
Qed.

(** A string without the separator is its only piece. *)
Lemma split_pieces_no_sep sep s :
  sep ∉ chars s -> split_pieces sep s = (s, []).
Proof.
  induction s as [|c s IH]; intros Hs; [done|].
  simpl in Hs. apply not_elem_of_cons in Hs as [Hc Hs].
  rewrite split_pieces_cons, decide_False by done. by rewrite IH.
Qed.

Lemma split_pieces_app sep s t :
  sep ∉ chars s ->
  split_pieces sep (s +:+ String sep t) = (s, split sep t).
Proof.
  induction s as [|c s IH]; intros Hs.
  - rewrite PyStrFacts.app_nil_l, split_pieces_cons, decide_True by done.
    by rewrite <- split_eq.
  - simpl in Hs. apply not_elem_of_cons in Hs as [Hc Hs].
    rewrite PyStrFacts.app_cons, split_pieces_cons, decide_False by done.
    by rewrite IH.
Qed.

(** Joining pieces that hold no separator and splitting again. *)
Lemma split_join sep l :
  l ≠ [] -> Forall (fun w => sep ∉ chars w) l ->
  split sep (join (String sep EmptyString) l) = l.
Proof.
  induction l as [|x l IH]; intros Hne Hl; [done|].
  apply Forall_cons in Hl as [Hx Hl]. destruct l as [|y l].
  - simpl. rewrite split_eq. by rewrite split_pieces_no_sep.
  - change (join (String sep EmptyString) (x :: y :: l))
      with (x +:+ String sep EmptyString +:+ join (String sep EmptyString) (y :: l)).
    change (String sep EmptyString +:+ ?t) with (String sep t).
    rewrite split_eq, split_pieces_app by done. simpl.
    f_equal. by apply IH.
Qed.

Lemma isspace_newline : isspace newline_char = true.
Proof. reflexivity. Qed.

(** [lstrip] drops the white space in front and nothing else. *)
Lemma lstrip_spec s :
  exists w, s = w +:+ lstrip s /\ Forall (fun c => isspace c = true) (chars w) /\
            (forall c, head (chars (lstrip s)) = Some c -> isspace c = false).
Proof.
  induction s as [|c s (w & Hw & Hsp & Hhd)].
  - exists EmptyString. by repeat split.
  - simpl. destruct (isspace c) eqn:Hc.
    + exists (String c w). rewrite PyStrFacts.app_cons, <- Hw.
      split; [done|]. split; [by constructor|done].
    + exists EmptyString. split; [done|]. split; [constructor|].
      simpl. by intros ? [= <-].
Qed.

Lemma rstrip_nil_iff s :
  rstrip s = EmptyString <-> Forall (fun c => isspace c = true) (chars s).
Proof.
  induction s as [|c s IH]; [by split; [constructor|]|].
  simpl. destruct (rstrip s) as [|d r] eqn:Hr.
  - destruct (isspace c) eqn:Hc.
    + split; [|done]. intros _. constructor; [done|]. by apply IH.
    + split; [done|]. intros H. apply Forall_cons in H as [H _]. congruence.
  - split; [done|]. intros H. apply Forall_cons in H as [_ H].
    by apply IH in H.
Qed.

(** [rstrip] drops the white space at the end and nothing else. *)
Lemma rstrip_spec s :
  exists w, s = rstrip s +:+ w /\ Forall (fun c => isspace c = true) (chars w) /\
            (forall c, last (chars (rstrip s)) = Some c -> isspace c = false).
Proof.
  induction s as [|c s (w & Hw & Hsp & Hlast)].
  - exists EmptyString. by repeat split.
  - simpl. destruct (rstrip s) as [|d r] eqn:Hr.
    + destruct (isspace c) eqn:Hc.
      * exists (String c w). rewrite PyStrFacts.app_nil_l in *.
        split; [by rewrite <- Hw|]. split; [by constructor|done].
      * exists w. rewrite PyStrFacts.app_nil_l in Hw.
        split; [by rewrite PyStrFacts.app_cons, PyStrFacts.app_nil_l, <- Hw|].
        split; [done|]. simpl. by intros ? [= <-].
    + exists w. split; [by rewrite PyStrFacts.app_cons, <- Hw|].
      split; [done|]. intros c' Hc'. apply Hlast.
      simpl in *. by destruct (chars r).
Qed.

(** The first character of a string that does not start with white
    space is kept by [rstrip]. *)
Lemma head_rstrip s c :
  head (chars s) = Some c -> isspace c = false ->
  head (chars (rstrip s)) = Some c.
Proof.
  destruct s as [|d s]; [done|]. simpl. intros [= ->] Hc.
  destruct (rstrip s); [by rewrite Hc|done].
Qed.

Lemma lstrip_id s c :
  head (chars s) = Some c -> isspace c = false -> lstrip s = s.
Proof. destruct s as [|d s]; [done|]. simpl. intros [= ->] ->. done. Qed.

Lemma rstrip_id s c :
  last (chars s) = Some c -> isspace c = false -> rstrip s = s.
Proof.
  induction s as [|d s IH]; [done|]. simpl. intros Hlast Hc.
  destruct s as [|e s].
  - simpl in *. injection Hlast as ->. by rewrite Hc.
  - rewrite IH; [done| |done]. exact Hlast.
Qed.

Lemma strip_nil_iff s : strip s = EmptyString <-> blank s.
Proof.
  unfold strip, blank. rewrite rstrip_nil_iff.
  destruct (lstrip_spec s) as (w & Hw & Hsp & _).
  rewrite Hw at 2. rewrite chars_app, Forall_app. tauto.
Qed.

(** The characters of [strip s] are characters of [s]. *)
Lemma elem_of_chars_strip s c : c ∈ chars (strip s) -> c ∈ chars s.
Proof.
  unfold strip. intros Hc.
  destruct (lstrip_spec s) as (w & Hw & _).
  destruct (rstrip_spec (lstrip s)) as (w' & Hw' & _).
  rewrite Hw, Hw', !chars_app, !elem_of_app. tauto.
Qed.

End PyStrMethodsFacts.

Lemma filter_all {A} (P : A -> Prop) `{!forall x, Decision (P x)} (l : list A) :
  Forall P l -> filter P l = l.
Proof.
  induction 1 as [|x l Hx Hl IH]; [done|].
  by rewrite filter_cons_True, IH.
Qed.

Lemma filter_none {A} (P : A -> Prop) `{!forall x, Decision (P x)} (l : list A) :
  Forall (fun x => ~ P x) l <-> filter P l = [].
Proof.
  induction l as [|x l IH]; [done|].
  rewrite Forall_cons, filter_cons. case_decide.
  - split; [tauto|done].
  - rewrite IH. tauto.
Qed.

Lemma strip_clean_id label :
  clean_label label -> PyStrMethods.strip label = label.
Proof.
  intros (Hhd & Hlast & _). unfold PyStrMethods.strip.
  destruct (head (PyStrMethods.chars label)) as [c|] eqn:Hc; [|done].
  destruct (last (PyStrMethods.chars label)) as [d|] eqn:Hd; [|done].
  simpl in Hhd, Hlast. injection Hhd as Hhd. injection Hlast as Hlast.
  rewrite (PyStrMethodsFacts.lstrip_id label c) by done.
  by apply (PyStrMethodsFacts.rstrip_id label d).
Qed.

Lemma clean_label_not_nil label : clean_label label -> label ≠ EmptyString.
Proof. intros (Hhd & _) ->. done. Qed.

Lemma strip_is_clean w :
  PyStrMethods.strip w ≠ EmptyString ->
  newline_char ∉ PyStrMethods.chars w ->
  clean_label (PyStrMethods.strip w).
Proof.
  intros Hne Hnl. unfold PyStrMethods.strip in *.
  destruct (PyStrMethodsFacts.lstrip_spec w) as (_ & _ & _ & Hhd).
  destruct (PyStrMethodsFacts.rstrip_spec (PyStrMethods.lstrip w))
    as (_ & _ & _ & Hlast).
  assert (Hl : PyStrMethods.lstrip w ≠ EmptyString).
  { intros Hl. by rewrite Hl in Hne. }
  split; [|split].
  - destruct (PyStrMethods.lstrip w) as [|c s] eqn:Hs; [done|].
    rewrite (PyStrMethodsFacts.head_rstrip _ c); [|done|by apply Hhd].
    simpl. f_equal. by apply Hhd.
  - destruct (PyStrMethods.rstrip (PyStrMethods.lstrip w)) as [|c s] eqn:Hs;
      [done|].
    destruct (last (PyStrMethods.chars (String c s))) as [d|] eqn:Hd.
    + simpl. f_equal. by apply Hlast.
    + apply last_None in Hd. done.
  - intros Hin. apply Hnl.
    by apply (PyStrMethodsFacts.elem_of_chars_strip w).
Qed.

(** X1. Every label that line 114 keeps begins and ends with a character
    that is not white space (so it is not empty) and holds no newline,
    whatever the user typed in the text area. *)
Theorem parse_labels_clean (custom_label_input label : string) :
  label ∈ parse_labels custom_label_input -> clean_label label.
Proof.
  unfold parse_labels. intros Hin.
  apply list_elem_of_fmap in Hin as (w & -> & Hw).
  apply list_elem_of_filter in Hw as [Hne Hw].
  apply strip_is_clean; [done|].
  by apply (PyStrMethodsFacts.split_no_sep _ custom_label_input).
Qed.

(** The labels typed as a line in white space, an empty line and a line
    with a space inside: the second label is kept without its margins. *)
Lemma parse_labels_clean_witness :
  "b c" ∈ parse_labels (" a " +:+ newline +:+ newline +:+ "  b c  ") /\
  clean_label "b c".
Proof.
  assert (Hin : "b c" ∈ parse_labels (" a " +:+ newline +:+ newline +:+ "  b c  ")).
  { apply (bool_decide_unpack _). by vm_compute. }
  split; [exact Hin|].
  exact (parse_labels_clean _ _ Hin).
Defined.

(** X2. Labels that begin and end with a character that is not white
    space and hold no newline, written one per line, are read back as
    they are, in the same order: in particular the default content of
    the text area gives the default labels. *)
Theorem parse_labels_join (labels : list string) :
  Forall clean_label labels ->
  parse_labels (PyStrMethods.join newline labels) = labels.
Proof.
  intros Hclean. destruct (decide (labels = [])) as [->|Hne]; [done|].
  unfold parse_labels, newline.
  change (ascii_of_nat 10) with newline_char.
  rewrite PyStrMethodsFacts.split_join; [|done|].
  - rewrite filter_all.
    + rewrite <- (list_fmap_id labels) at 2.
      apply Forall_fmap_ext_1. eapply Forall_impl; [exact Hclean|].
      intros l Hl. by apply strip_clean_id.
    + eapply Forall_impl; [exact Hclean|]. intros l Hl.
      rewrite strip_clean_id by done. by apply clean_label_not_nil.
  - eapply Forall_impl; [exact Hclean|]. by intros l (_ & _ & Hl).
Qed.

Lemma parse_labels_join_witness :
  Forall clean_label default_labels /\
  parse_labels default_label_input = default_labels.
Proof.
  assert (Hclean : Forall clean_label default_labels).
  { repeat constructor; apply (bool_decide_unpack _); by vm_compute. }
  split; [exact Hclean|].
  exact (parse_labels_join default_labels Hclean).
Defined.

Lemma blank_split sep s :
  PyStrMethods.isspace sep = true ->
  blank s <-> Forall blank (PyStrMethods.split sep s).
Proof.
  intros Hsep. unfold blank. induction s as [|c s IH].
  - split; [by repeat constructor|intros _; constructor].
  - rewrite PyStrMethodsFacts.split_eq in IH.
    rewrite PyStrMethodsFacts.split_eq, PyStrMethodsFacts.split_pieces_cons.
    simpl. rewrite Forall_cons, IH, Forall_cons. clear IH.
    destruct (decide (c = sep)) as [->|Hc]; simpl; rewrite !Forall_cons.
    + split; [intros (_ & Hw & Hws)|intros (_ & Hw & Hws)]; by repeat split.
    + change (PyStrMethods.chars (String c ?w)) with (c :: PyStrMethods.chars w).
      rewrite Forall_cons.
      split; [intros (Hc' & Hw & Hws)|intros ((Hc' & Hw) & Hws)]; by repeat split.
Qed.

(** X3. No label at all is read exactly when the text area holds white
    space only (newlines included): then the model is asked for no
    label. *)
Theorem parse_labels_nil_iff (custom_label_input : string) :
  parse_labels custom_label_input = [] <-> blank custom_label_input.
Proof.
  unfold parse_labels.
  rewrite (blank_split newline_char) by reflexivity.
  match goal with |- ?f <$> ?l = [] <-> _ =>
    assert (Hfmap : f <$> l = [] <-> l = []) by (by destruct l)
  end.
  rewrite Hfmap, <- filter_none. clear Hfmap.
  split; intros H; (eapply Forall_impl; [exact H|]); intros w Hw.
  - apply PyStrMethodsFacts.strip_nil_iff.
    by destruct (decide (PyStrMethods.strip w = EmptyString)).
  - intros Hne. by apply Hne, PyStrMethodsFacts.strip_nil_iff.
Qed.

(** ** The colours of the sidebar *)

Lemma pick_color_run color_picker label τ :
  pick_color color_picker label τ
  = (tt, {| acolors := <[label := color_picker ("Color for " +:+ label)
                                    (color_for (acolors τ) label)]> (acolors τ);
            alists := alists τ;
            alog := alog τ ++ [StColorPicker ("Color for " +:+ label)
                                 (color_for (acolors τ) label)] |}).
Proof.
  unfold pick_color, mbind, T_bind, lift, call, dict_get, dict_set.
  cbn [color_options lists ui acolors alists alog fmap list_fmap].
  by rewrite !app_nil_r.
Qed.

Lemma for_each_T_cons {A} (body : A -> T unit) x l τ :
  for_each_T body (x :: l) τ = for_each_T body l (body x τ).2.
Proof.
  cbn [for_each_T]. unfold mbind, T_bind. by destruct (body x τ).
Qed.

(** The loop over labels that are all different: every picker starts
    with the colour the dict had before the loop. *)
Lemma for_each_pick_color color_picker labels τ :
  NoDup labels ->
  let τ' := (for_each_T (pick_color color_picker) labels τ).2 in
  (forall k,
     acolors τ' !! k
     = if decide (k ∈ labels)
       then Some (color_picker ("Color for " +:+ k) (color_for (acolors τ) k))
       else acolors τ !! k) /\
  alists τ' = alists τ /\
  alog τ' = alog τ ++ ((fun label => StColorPicker ("Color for " +:+ label)
                                       (color_for (acolors τ) label)) <$> labels).
Proof.
  intros Hnd. revert τ. induction Hnd as [|l labels Hl Hnd IH]; intros τ.
  - cbn [for_each_T]. split; [|split; [done|by rewrite app_nil_r]].
    intros k. by rewrite decide_False by apply not_elem_of_nil.
  - cbv zeta. rewrite for_each_T_cons, pick_color_run. cbn [snd].
    destruct (IH {| acolors := <[l := color_picker ("Color for " +:+ l)
                                        (color_for (acolors τ) l)]> (acolors τ);
                    alists := alists τ;
                    alog := alog τ ++ [StColorPicker ("Color for " +:+ l)
                                         (color_for (acolors τ) l)] |})
      as (Hcol & Hlists & Hlog). cbn [acolors alists alog] in *.
    assert (Hother : forall k, k ∈ labels ->
              color_for (<[l := color_picker ("Color for " +:+ l)
                                  (color_for (acolors τ) l)]> (acolors τ)) k
              = color_for (acolors τ) k).
    { intros k Hk. unfold color_for. rewrite lookup_insert_ne; [done|].
      by intros ->. }
    split; [|split; [done|]].
    + intros k. rewrite Hcol. destruct (decide (k ∈ labels)) as [Hk|Hk].
      * rewrite decide_True by (by right). by rewrite Hother.
      * destruct (decide (k = l)) as [->|Hkl].
        -- rewrite decide_True by (by left). apply lookup_insert_eq.
        -- rewrite decide_False; [by apply lookup_insert_ne|].
           intros [->|?]%elem_of_cons; done.
    + rewrite Hlog, <- app_assoc. f_equal. cbn [fmap list_fmap List.app]. f_equal.
      apply Forall_fmap_ext_1, Forall_forall. intros k Hk. by rewrite Hother.
Qed.

Lemma NoDup_default_labels : NoDup default_labels.
Proof. apply (bool_decide_unpack _). by vm_compute. Qed.

(** The sidebar in one step. *)
Lemma sidebar_colors_run color_picker τ :
  let τ' := runT (sidebar_colors color_picker) τ in
  (forall k,
     acolors τ' !! k
     = if decide (k ∈ default_labels)
       then Some (color_picker ("Color for " +:+ k) (color_for default_color_options k))
       else default_color_options !! k) /\
  alists τ' = alists τ /\
  alog τ' = alog τ
            ++ [Element (Subheader "Entity Colors"); StWrite "Customize entity colors:"]
            ++ ((fun label => StColorPicker ("Color for " +:+ label)
                                (color_for default_color_options label))
                  <$> default_labels).
Proof.
  cbv zeta. unfold runT, sidebar_colors.
  unfold mbind at 1 2 3, T_bind, call at 1 2, lift, assign_color_options.
  cbn [color_options lists ui acolors alists alog fmap list_fmap snd].
  destruct (for_each_pick_color color_picker default_labels
              {| acolors := default_color_options; alists := alists τ;
                 alog := ((alog τ ++ [Element (Subheader "Entity Colors")]) ++ [])
                         ++ [StWrite "Customize entity colors:"] |}
              NoDup_default_labels) as (Hcol & Hlists & Hlog).
  cbn [acolors alists alog] in *.
  split; [exact Hcol|]. split; [exact Hlists|].
  etrans; [exact Hlog|]. by rewrite app_nil_r, <- !app_assoc.
Qed.

Lemma default_labels_have_color label :
  label ∈ default_labels -> is_Some (default_color_options !! label).
Proof.
  unfold default_labels. rewrite !elem_of_cons, elem_of_nil.
  intros [->|[->|[->|[->|[]]]]]; eexists; vm_compute; reflexivity.
Qed.

(** X4.  Lines 65-76: for each of the four default labels the colour
    picker is offered the colour of the dict literal (the fallback
    ["#90caf9"] of [color_options.get] is never used), under the caption
    "Color for <label>", and what the picker returns is the label's colour
    afterwards. *)
Theorem sidebar_colors_picked (color_picker : string -> string -> string)
    (τ : app) (label : string) :
  label ∈ default_labels ->
  exists c,
    default_color_options !! label = Some c /\
    StColorPicker ("Color for " +:+ label) c
      ∈ alog (runT (sidebar_colors color_picker) τ) /\
    acolors (runT (sidebar_colors color_picker) τ) !! label
    = Some (color_picker ("Color for " +:+ label) c).
Proof.
  intros Hl. destruct (default_labels_have_color label Hl) as [c Hc].
  destruct (sidebar_colors_run color_picker τ) as (Hcol & _ & Hlog).
  exists c. split; [done|].
  assert (Hcf : color_for default_color_options label = c).
  { unfold color_for. by rewrite Hc. }
  split.
  - rewrite Hlog, !elem_of_app. right. right.
    apply list_elem_of_fmap. exists label. cbv beta. rewrite Hcf.
    split; [reflexivity|assumption].
  - rewrite Hcol, decide_True by assumption. rewrite Hcf. reflexivity.
Qed.

Lemma sidebar_colors_picked_witness :
  exists c,
    default_color_options !! "drug group" = Some c /\
    StColorPicker ("Color for " +:+ "drug group") c
      ∈ alog (runT (sidebar_colors (fun _ _ => "#000000"))
                   {| acolors := ∅; alists := ∅; alog := [] |}) /\
    acolors (runT (sidebar_colors (fun _ _ => "#000000"))
                  {| acolors := ∅; alists := ∅; alog := [] |}) !! "drug group"
    = Some "#000000".
Proof.
  apply (sidebar_colors_picked (fun _ _ => "#000000")
           {| acolors := ∅; alists := ∅; alog := [] |} "drug group").
  apply (bool_decide_unpack _). by vm_compute.
Defined.

(** X5.  Lines 65-76 and 155: the sidebar offers a picker for the four
    default labels only, so a label the user adds in the text area is
    highlighted with the fallback colour ["#90caf9"], whatever the pickers
    return and whatever the dict held before. *)
Theorem custom_label_gets_fallback (color_picker : string -> string -> string)
    (τ : app) (text_input : string) (ent : Ent) :
  label ent ∉ default_labels ->
  acolors (runT (sidebar_colors color_picker) τ) !! label ent = None /\
  span_chunks (acolors (runT (sidebar_colors color_picker) τ)) text_input ent
  = [Tag (span_open "#90caf9");
     Text (PyStr.slice text_input (start ent) (end_ ent));
     Tag (span_close (label ent))].
Proof.
  intros Hl.
  destruct (sidebar_colors_run color_picker τ) as (Hcol & _ & _).
  assert (Hnone : acolors (runT (sidebar_colors color_picker) τ) !! label ent = None).
  { rewrite Hcol, decide_False by done.
    revert Hl. unfold default_labels, default_color_options.
    rewrite !not_elem_of_cons. intros (? & ? & ? & ? & _).
    by rewrite !lookup_insert_ne, lookup_empty by done. }
  split; [done|]. unfold span_chunks, color_for. by rewrite Hnone.
Qed.

Lemma custom_label_gets_fallback_witness :
  acolors (runT (sidebar_colors (fun _ _ => "#000000"))
                {| acolors := {[ "gene" := "#ffffff" ]}; alists := ∅; alog := [] |})
    !! "gene" = None /\
  span_chunks (acolors (runT (sidebar_colors (fun _ _ => "#000000"))
                 {| acolors := {[ "gene" := "#ffffff" ]}; alists := ∅; alog := [] |}))
    "the BRCA1 gene" (span 4 9 "gene")
  = [Tag (span_open "#90caf9"); Text "BRCA1"; Tag (span_close "gene")].
Proof.
  apply (custom_label_gets_fallback (fun _ _ => "#000000")
           {| acolors := {[ "gene" := "#ffffff" ]}; alists := ∅; alog := [] |}
           "the BRCA1 gene" (span 4 9 "gene")).
  apply (bool_decide_unpack _). by vm_compute.
Defined.

(** ** The markup, for any list of spans *)





(** ** No character of the text is lost *)

Lemma chars_take n s :
  PyStrMethods.chars (PyStr.take n s) = take n (PyStrMethods.chars s).
Proof.
  revert s. induction n as [|n IH]; intros [|c s]; try done.
  cbn [PyStr.take PyStrMethods.chars take]. by rewrite IH.
Qed.

Lemma chars_drop n s :
  PyStrMethods.chars (PyStr.drop n s) = drop n (PyStrMethods.chars s).
Proof.
  revert s. induction n as [|n IH]; intros [|c s]; try done.
  cbn [PyStr.drop PyStrMethods.chars drop]. apply IH.
Qed.

Lemma length_chars s : length (PyStrMethods.chars s) = String.length s.
Proof. induction s as [|c s IH]; [done|]. cbn. by rewrite IH. Qed.

Lemma chars_slice s i j :
  PyStrMethods.chars (PyStr.slice s i j)
  = take (Z.to_nat (PyStr.adjust (PyStr.len s) j)
          - Z.to_nat (PyStr.adjust (PyStr.len s) i))
         (drop (Z.to_nat (PyStr.adjust (PyStr.len s) i)) (PyStrMethods.chars s)).
Proof.
  rewrite PyStrFacts.slice_take_drop, chars_take, chars_drop. f_equal.
  pose proof (PyStrFacts.adjust_range (PyStr.len s) i (PyStrFacts.len_nonneg s)).
  pose proof (PyStrFacts.adjust_range (PyStr.len s) j (PyStrFacts.len_nonneg s)).
  lia.
Qed.

Section Segments.
Context {A : Type} (l : list A).

(** Two pieces of a list that follow each other. *)
Lemma segment_app (i j k : nat) :
  (i <= j <= k)%nat ->
  take (j - i) (drop i l) ++ take (k - j) (drop j l) = take (k - i) (drop i l).
Proof.
  intros Hijk.
  assert (drop j l = drop (j - i) (drop i l)) as ->.
  { rewrite drop_drop. f_equal. lia. }
  rewrite take_take_drop. f_equal. lia.
Qed.

(** The step of the loop: with the cursor at [a], appending [l[a:b]] and
    [l[b:c]] covers [l[:c]], whatever the order of [a], [b] and [c]. *)
Lemma prefix_covered (a b c : nat) (out : list A) :
  take a l `sublist_of` out ->
  take c l `sublist_of`
    out ++ take (b - a) (drop a l) ++ take (c - b) (drop b l).
Proof.
  intros Hout. destruct (decide (c <= a)%nat) as [Hca|Hac].
  - apply sublist_inserts_r. etrans; [|exact Hout].
    replace c with (c `min` a)%nat by lia. rewrite <- take_take. apply sublist_take.
  - replace (take c l) with (take a l ++ take (c - a) (drop a l)).
    2:{ rewrite take_take_drop. f_equal. lia. }
    apply sublist_app; [done|].
    destruct (decide (b < a)%nat) as [Hba|Hab].
    + replace (b - a)%nat with O by lia. rewrite take_0, app_nil_l.
      rewrite <- (segment_app b a c) by lia. by apply sublist_inserts_l.
    + destruct (decide (b <= c)%nat) as [Hbc|Hcb].
      * by rewrite segment_app by lia.
      * replace (c - b)%nat with O by lia. rewrite take_0, app_nil_r.
        replace (c - a)%nat with ((c - a) `min` (b - a))%nat by lia.
        rewrite <- take_take. apply sublist_take.
Qed.

End Segments.

(** Loop invariant: the text up to the cursor is in the text pieces of
    [highlighted]. *)
Lemma prefix_in_foldl co text ents cs last_idx :
  take (Z.to_nat (PyStr.adjust (PyStr.len text) last_idx)) (PyStrMethods.chars text)
    `sublist_of` PyStrMethods.chars (strip_markup cs) ->
  let r := foldl (loop_body_chunks co text) (cs, last_idx) ents in
  take (Z.to_nat (PyStr.adjust (PyStr.len text) r.2)) (PyStrMethods.chars text)
    `sublist_of` PyStrMethods.chars (strip_markup r.1).
Proof.
  revert cs last_idx. induction ents as [|e ents IH]; intros cs last_idx Hcs; [done|].
  cbv zeta. rewrite foldl_cons, loop_body_chunks_eq. apply IH.
  rewrite strip_markup_app, strip_markup_cons_text, strip_markup_span.
  rewrite !PyStrMethodsFacts.chars_app, !chars_slice.
  by apply prefix_covered.
Qed.

Lemma text_in_stripped co text ents :
  PyStrMethods.chars text
    `sublist_of` PyStrMethods.chars (strip_markup (highlight_chunks co text ents)).
Proof.
  unfold highlight_chunks.
  pose proof (prefix_in_foldl co text ents [] 0) as H. cbv zeta in H.
  destruct (foldl (loop_body_chunks co text) ([], 0) ents) as [cs k].
  cbn [fst snd] in H.
  rewrite strip_markup_app, strip_markup_text, PyStrMethodsFacts.chars_app.
  unfold PyStr.slice_from. rewrite chars_drop.
  rewrite <- (take_drop (Z.to_nat (PyStr.adjust (PyStr.len text) k))
                        (PyStrMethods.chars text)) at 1.
  apply sublist_app; [|done]. apply H.
  unfold PyStr.adjust. cbn [Z.ltb Z.compare].
  rewrite Z.min_l by apply PyStrFacts.len_nonneg. apply sublist_nil_l.
Qed.

(** The text pieces of a marked output are in its string. *)
Lemma stripped_in_flatten cs :
  PyStrMethods.chars (strip_markup cs) `sublist_of` PyStrMethods.chars (flatten cs).
Proof.
  induction cs as [|c cs IH]; [done|].
  change (flatten (c :: cs)) with (chunk_str c +:+ flatten cs).
  rewrite PyStrMethodsFacts.chars_app. destruct c as [s|s].
  - rewrite strip_markup_cons_text, PyStrMethodsFacts.chars_app.
    by apply sublist_app.
  - change (strip_markup (Tag s :: cs)) with (strip_markup cs).
    by apply sublist_inserts_l.
Qed.

(** X7.  Lines 143-165: the rendering never loses a character of the
    text.  Whatever spans the model returns (overlapping, nested, inverted,
    negative or beyond the end), every character of the text is, in its
    order, in the string the loop builds, and already in its pieces of
    text (what the loop adds around the entities left aside); overlapping
    spans can only add repeated characters. *)
Theorem text_never_lost (co : gmap string string) (text : string)
    (ents : list Ent) :
  subsequence text (highlight co text ents) /\
  subsequence text (strip_markup (highlight_chunks co text ents)).
Proof.
  unfold subsequence. split; [|apply text_in_stripped].
  rewrite <- flatten_highlight_chunks.
  etrans; [apply text_in_stripped|apply stripped_in_flatten].
Qed.

(** ** Arrival order *)

Section DistinctKeys.
Context {A : Type} (key : A -> Z).

(** With keys all different, at most one element has a given key. *)
Lemma filter_key_short k l :
  NoDup (key <$> l) -> (length (filter (fun y => key y = k) l) <= 1)%nat.
Proof.
  induction l as [|x l IH]; [cbn; lia|].
  rewrite fmap_cons, NoDup_cons. intros [Hx Hnd].
  rewrite filter_cons. case_decide as Hk; [|by apply IH].
  replace (filter (fun y => key y = k) l) with (@nil A); [cbn; lia|].
  symmetry. apply filter_none, Forall_forall. intros y Hy Hyk.
  apply Hx, list_elem_of_fmap. exists y. split; [congruence|done].
Qed.

Lemma filter_key_perm k l1 l2 :
  l1 ≡ₚ l2 -> NoDup (key <$> l1) ->
  filter (fun y => key y = k) l1 = filter (fun y => key y = k) l2.
Proof.
  intros Hp Hnd.
  assert (Hf : filter (fun y => key y = k) l1 ≡ₚ filter (fun y => key y = k) l2)
    by (by rewrite Hp).
  pose proof (filter_key_short k l1 Hnd) as Hlen.
  destruct (filter (fun y => key y = k) l1) as [|x [|x' f1]].
  - by apply Permutation_nil_l.
  - by apply Permutation_singleton_l.
  - cbn in Hlen. lia.
Qed.

Lemma list_sort_perm_distinct l1 l2 :
  l1 ≡ₚ l2 -> NoDup (key <$> l1) -> list_sort key l1 = list_sort key l2.
Proof.
  intros Hp Hnd. apply (sorted_stable_unique key); try apply list_sort_sorted.
  intros k. rewrite !list_sort_stable. by apply filter_key_perm.
Qed.

End DistinctKeys.

(** X8.  Line 122: when no two spans begin at the same offset, the order
    in which the model returns them has no effect: two lists with the same
    spans are sorted to the same list, so the table and the highlighted
    text are the same. *)
Theorem arrival_order_irrelevant (co : gmap string string) (text : string)
    (ents1 ents2 : list Ent) :
  ents1 ≡ₚ ents2 ->
  NoDup (start <$> ents1) ->
  list_sort start ents1 = list_sort start ents2 /\
  results_shown co text (list_sort start ents1)
  = results_shown co text (list_sort start ents2).
Proof.
  intros Hp Hnd.
  by rewrite (list_sort_perm_distinct start ents1 ents2 Hp Hnd).
Qed.

Lemma arrival_order_irrelevant_witness :
  list_sort start [span 10 14 "drug group"; span 0 4 "drug brand name"]
  = list_sort start [span 0 4 "drug brand name"; span 10 14 "drug group"] /\
  results_shown ∅ "Advil and NSAIDs"
    (list_sort start [span 10 14 "drug group"; span 0 4 "drug brand name"])
  = results_shown ∅ "Advil and NSAIDs"
      (list_sort start [span 0 4 "drug brand name"; span 10 14 "drug group"]).
Proof.
  apply (arrival_order_irrelevant ∅ "Advil and NSAIDs"
           [span 10 14 "drug group"; span 0 4 "drug brand name"]
           [span 0 4 "drug brand name"; span 10 14 "drug group"]).
  - apply perm_swap.
  - apply (bool_decide_unpack _). by vm_compute.
Defined.

(** ** The results tab *)

Lemma bind_T {A B} (m : T A) (f : A -> T B) τ :
  (m ≫= f) τ = f (m τ).1 (m τ).2.
Proof. unfold mbind, T_bind. by destruct (m τ). Qed.

Lemma load_model_run from_pretrained model_name τ :
  load_model from_pretrained model_name τ
  = match from_pretrained model_name with
    | Returned model =>
        (Some model,
         {| acolors := acolors τ; alists := alists τ;
            alog := alog τ ++ [StSpinner "Loading GLiNER model..."] |})
    | Raised e =>
        (None,
         {| acolors := acolors τ; alists := alists τ;
            alog := alog τ ++ [StSpinner "Loading GLiNER model...";
                               StError ("Error loading model: " +:+ e)] |})
    end.
Proof.
  unfold load_model. rewrite bind_T.
  destruct (from_pretrained model_name) as [model|e]; [done|].
  rewrite bind_T. cbn [call fst snd acolors alists alog]. unfold mret, T_ret.
  by rewrite <- app_assoc.
Qed.

Lemma lift_show_results text l τ :
  lift (show_results text l) τ
  = (tt,
     {| acolors := acolors τ;
        alists := <[l := list_sort start (alists τ !!! l)]> (alists τ);
        alog := alog τ
                ++ (Element <$>
                      (if bool_decide (list_sort start (alists τ !!! l) ≠ [])
                       then results_shown (acolors τ) text
                              (list_sort start (alists τ !!! l))
                       else [Info "No entities were detected in the provided text."])) |}).
Proof.
  unfold lift.
  pose proof (show_results_run text l
                {| color_options := acolors τ; lists := alists τ; ui := [] |}) as H.
  cbv zeta in H. unfold run in H.
  destruct (show_results text l _) as [[] σ]. cbn [snd] in H. by rewrite H.
Qed.

(** The results tab in one step. *)
Lemma results_tab_run from_pretrained process_button text_input model_name
    custom_label_input τ :
  runT (results_tab from_pretrained process_button text_input model_name
          custom_label_input) τ
  = if process_button && bool_decide (text_input ≠ EmptyString) then
      match from_pretrained model_name with
      | Raised e =>
          {| acolors := acolors τ; alists := alists τ;
             alog := alog τ ++ [StSpinner "Loading GLiNER model...";
                                StError ("Error loading model: " +:+ e)] |}
      | Returned model =>
          match predict_entities model text_input (parse_labels custom_label_input) with
          | Raised e =>
              {| acolors := acolors τ; alists := alists τ;
                 alog := alog τ ++ [StSpinner "Loading GLiNER model...";
                                    StSpinner "Processing text...";
                                    StError ("Error processing text: " +:+ e)] |}
          | Returned ents =>
              {| acolors := acolors τ;
                 alists := <[fresh (dom (alists τ)) := list_sort start ents]> (alists τ);
                 alog := alog τ
                         ++ [StSpinner "Loading GLiNER model...";
                             StSpinner "Processing text..."]
                         ++ (Element <$>
                               (if bool_decide (list_sort start ents ≠ [])
                                then results_shown (acolors τ) text_input
                                       (list_sort start ents)
                                else [Info "No entities were detected in the provided text."])) |}
          end
      end
    else
      {| acolors := acolors τ; alists := alists τ;
         alog := alog τ
                 ++ [if process_button
                     then StWarning "Please enter some text to process."
                     else Element (Info "Enter your text in the 'Text Input' tab and click 'Process Text' to see results here.")] |}.
Proof.
  unfold runT, results_tab.
  destruct process_button; cbn [andb]; [|done].
  destruct (decide (text_input = EmptyString)) as [Htext|Htext].
  { rewrite (bool_decide_false (text_input ≠ EmptyString)) by (intros H; by apply H).
    by rewrite bool_decide_true by done. }
  rewrite bool_decide_true by done.
  rewrite bind_T, load_model_run.
  destruct (from_pretrained model_name) as [model|e]; [|done].
  cbn [fst snd]. cbv zeta. rewrite bind_T. cbn [call fst snd].
  destruct (predict_entities model text_input (parse_labels custom_label_input))
    as [ents|e].
  - rewrite bind_T. unfold new_list. cbn [fst snd].
    rewrite lift_show_results. cbn [snd acolors alists alog].
    rewrite lookup_total_insert_eq, insert_insert_eq.
    by rewrite <- !app_assoc.
  - cbn [call snd acolors alists alog]. by rewrite <- !app_assoc.
Qed.

Lemma calls_of_app m τ news :
  alog (runT m τ) = alog τ ++ news -> calls_of m τ = news.
Proof. unfold calls_of. intros ->. apply drop_app_length. Qed.

Lemma list_sort_nil_iff {A} (key : A -> Z) l : list_sort key l = [] <-> l = [].
Proof.
  split; [|by intros ->]. intros H.
  apply length_zero_iff_nil. rewrite <- (length_list_sort key), H. done.
Qed.

(** The calls of the results tab, case by case. *)
Lemma results_tab_calls from_pretrained process_button text_input model_name
    custom_label_input τ :
  calls_of (results_tab from_pretrained process_button text_input model_name
              custom_label_input) τ
  = if process_button && bool_decide (text_input ≠ EmptyString) then
      StSpinner "Loading GLiNER model..." ::
      match from_pretrained model_name with
      | Raised e => [StError ("Error loading model: " +:+ e)]
      | Returned model =>
          StSpinner "Processing text..." ::
          match predict_entities model text_input (parse_labels custom_label_input) with
          | Raised e => [StError ("Error processing text: " +:+ e)]
          | Returned ents =>
              Element <$>
                (if bool_decide (ents ≠ [])
                 then results_shown (acolors τ) text_input (list_sort start ents)
                 else [Info "No entities were detected in the provided text."])
          end
      end
    else
      [if process_button
       then StWarning "Please enter some text to process."
       else Element (Info "Enter your text in the 'Text Input' tab and click 'Process Text' to see results here.")].
Proof.
  apply calls_of_app. rewrite results_tab_run.
  destruct (process_button && bool_decide (text_input ≠ EmptyString)); [|done].
  destruct (from_pretrained model_name) as [model|e]; [|done].
  destruct (predict_entities model text_input (parse_labels custom_label_input))
    as [ents|e]; [|done].
  cbn [alog]. do 3 f_equal.
  destruct (decide (ents = [])) as [->|Hne]; [done|].
  rewrite !bool_decide_true; [done..|]. by rewrite list_sort_nil_iff.
Qed.

(** Case analysis on what the results tab does. *)
Ltac results_tab_cases :=
  match goal with
  | |- context [?b && bool_decide (?t ≠ EmptyString)] =>
      destruct b; cbn [andb];
      [destruct (decide (t = EmptyString));
       [rewrite (bool_decide_false (t ≠ EmptyString)) by (intros H; by apply H)
       |rewrite (bool_decide_true (t ≠ EmptyString)) by assumption]
      |]
  end;
  repeat match goal with
  | |- context [match ?o with Returned _ => _ | Raised _ => _ end] =>
      let H := fresh "Hcall" in destruct o eqn:H
  end;
  repeat match goal with
  | |- context [bool_decide (?l ≠ [])] =>
      destruct (decide (l = []));
      [rewrite (bool_decide_false (l ≠ [])) by (intros H; by apply H)
      |rewrite (bool_decide_true (l ≠ [])) by assumption]
  end;
  unfold results_shown; cbn [fmap list_fmap];
  rewrite ?elem_of_cons, ?elem_of_nil.

(** A call is none of those of a list of calls of other kinds. *)
Ltac no_such_call H :=
  repeat (destruct H as [H|H]; [try discriminate H|]); try contradiction.

(** X9.  Lines 108-171: the table of entities is displayed exactly when
    the button was pressed, the text is not empty, the model was loaded,
    and the prediction, asked for the labels parsed from the text area,
    returned a list that is not empty; its rows are those of the list
    sorted by start. *)
Theorem table_shown_iff (from_pretrained : string -> outcome GLiNER)
    (process_button : bool) (text_input model_name custom_label_input : string)
    (τ : app) (rows : list Row) :
  Element (Dataframe rows)
    ∈ calls_of (results_tab from_pretrained process_button text_input model_name
                  custom_label_input) τ
  <-> process_button = true /\ text_input ≠ EmptyString /\
      exists model ents,
        from_pretrained model_name = Returned model /\
        predict_entities model text_input (parse_labels custom_label_input)
        = Returned ents /\
        ents ≠ [] /\
        rows = entities_df text_input (list_sort start ents).
Proof.
  rewrite results_tab_calls. results_tab_cases; split.
  all: try (intros Hin; no_such_call Hin;
            (injection Hin as ->;
             (split; [reflexivity|]); (split; [assumption|]);
             eexists _, _; (split; [reflexivity|]); (split; [eassumption|]);
             (split; [assumption|reflexivity]))).
  all: intros (Hpb & Ht & model & ents & Hfp & Hpred & Hne & Hrows);
    first [ congruence | do 3 right; left; congruence ].
Qed.

(** X10.  Lines 98-106 and 116-173: an error is reported exactly when the
    button was pressed on a text that is not empty and either loading the
    model raised, or the model was loaded and the prediction raised; the
    message says which of the two, followed by the text of the exception. *)
Theorem error_shown_iff (from_pretrained : string -> outcome GLiNER)
    (process_button : bool) (text_input model_name custom_label_input : string)
    (τ : app) (body : string) :
  StError body
    ∈ calls_of (results_tab from_pretrained process_button text_input model_name
                  custom_label_input) τ
  <-> process_button = true /\ text_input ≠ EmptyString /\
      ((exists e, from_pretrained model_name = Raised e /\
                  body = "Error loading model: " +:+ e) \/
       (exists model e,
          from_pretrained model_name = Returned model /\
          predict_entities model text_input (parse_labels custom_label_input)
          = Raised e /\
          body = "Error processing text: " +:+ e)).
Proof.
  rewrite results_tab_calls. results_tab_cases; split.
  all: try (intros Hin; no_such_call Hin;
            (injection Hin as ->;
             (split; [reflexivity|]); (split; [assumption|]);
             first [ left; eexists; split; reflexivity
                   | right; eexists _, _; (split; [reflexivity|]);
                     split; [eassumption|reflexivity] ])).
  all: intros (Hpb & Ht & [(e' & Hfp & ->)|(model & e' & Hfp & Hpred & ->)]);
    first [ congruence | right; left; congruence | do 2 right; left; congruence ].
Qed.

(** X11.  Lines 108-178: whatever the widgets hold and whatever the model
    library does, the results tab leaves [color_options] as it is, changes
    no list object that existed before (the list it sorts is the new one
    the prediction returned), and only adds to what is displayed. *)
Theorem results_tab_frame (from_pretrained : string -> outcome GLiNER)
    (process_button : bool) (text_input model_name custom_label_input : string)
    (τ : app) :
  acolors (runT (results_tab from_pretrained process_button text_input model_name
                   custom_label_input) τ) = acolors τ /\
  (forall l ents,
     alists τ !! l = Some ents ->
     alists (runT (results_tab from_pretrained process_button text_input model_name
                     custom_label_input) τ) !! l = Some ents) /\
  alog τ `prefix_of`
    alog (runT (results_tab from_pretrained process_button text_input model_name
                  custom_label_input) τ).
Proof.
  rewrite results_tab_run.
  destruct (process_button && bool_decide (text_input ≠ EmptyString));
    [|split; [done|]; split; [done|]; by apply prefix_app_r].
  destruct (from_pretrained model_name) as [model|e];
    [|split; [done|]; split; [done|]; by apply prefix_app_r].
  destruct (predict_entities model text_input (parse_labels custom_label_input))
    as [ents'|e];
    [|split; [done|]; split; [done|]; by apply prefix_app_r].
  cbn [acolors alists alog]. split; [done|]. split; [|by apply prefix_app_r].
  intros l ents Hl. rewrite lookup_insert_ne; [done|].
  intros <-. pose proof (is_fresh (dom (alists τ))) as Hfresh.
  apply not_elem_of_dom in Hfresh. congruence.
Qed.

(** X12.  Lines 108 and 174-178: when the button was not pressed, or the
    text is empty, neither the model nor the labels are used (the page is
    the same whatever they are), and exactly one message is displayed: the
    warning when the button was pressed, the hint otherwise (also when a
    text is there but the button was not pressed). *)
Theorem no_input_no_model (from_pretrained from_pretrained' : string -> outcome GLiNER)
    (process_button : bool)
    (text_input model_name model_name' custom_label_input custom_label_input' : string)
    (τ : app) :
  process_button = false \/ text_input = EmptyString ->
  runT (results_tab from_pretrained process_button text_input model_name
          custom_label_input) τ
  = runT (results_tab from_pretrained' process_button text_input model_name'
            custom_label_input') τ /\
  calls_of (results_tab from_pretrained process_button text_input model_name
              custom_label_input) τ
  = [if process_button
     then StWarning "Please enter some text to process."
     else Element (Info "Enter your text in the 'Text Input' tab and click 'Process Text' to see results here.")].
Proof.
  intros Hno. rewrite !results_tab_run, results_tab_calls.
  assert (process_button && bool_decide (text_input ≠ EmptyString) = false) as ->;
    [|done].
  destruct Hno as [->| ->]; [done|].
  rewrite bool_decide_false by (intros H; by apply H). apply andb_false_r.
Qed.

Lemma no_input_no_model_witness :
  runT (results_tab (fun _ => Raised "offline") true EmptyString
          "urchade/gliner_base" default_label_input)
       {| acolors := default_color_options; alists := ∅; alog := [] |}
  = runT (results_tab (fun _ => Returned (mkModel (fun _ _ => Returned [])))
            true EmptyString "urchade/gliner_large" "gene")
         {| acolors := default_color_options; alists := ∅; alog := [] |} /\
  calls_of (results_tab (fun _ => Raised "offline") true EmptyString
              "urchade/gliner_base" default_label_input)
           {| acolors := default_color_options; alists := ∅; alog := [] |}
  = [StWarning "Please enter some text to process."].
Proof.
  apply (no_input_no_model (fun _ => Raised "offline")
           (fun _ => Returned (mkModel (fun _ _ => Returned [])))
           true EmptyString "urchade/gliner_base" "urchade/gliner_large"
           default_label_input "gene"
           {| acolors := default_color_options; alists := ∅; alog := [] |}).
  right. reflexivity.
Defined.
